(** * yolo_train.py: a YOLOv3 training driver over a deep-learning framework

    The script is glue code: a manifest-reading dataset adapter, data-loader
    construction, a training loop and a checkpoint helper.  The embedding
    below follows [src/yolo_train.py] function by function.  Python values
    are modelled as the code uses them:

    - [int] as [Z], text as [string] (the only characters the code inspects
      are the ASCII ones of ["s3://"] and ["/"]),
    - a parsed manifest line as a [json] tree whose objects are finite maps,
    - a mean-average-precision value as a rational [Q] (finite floats are
      rationals; not-a-number and infinities are outside the model),
    - exceptions as the [Raise] branch of [result],
    - the framework (network, trainer, metrics, arrays) as an interface
      whose operations are pure functions on abstract states. *)

From Stdlib Require Import ZArith QArith Qminmax String Ascii DecimalString.
From Stdlib Require DecimalN.
From stdpp Require Import gmap strings list.

Local Open Scope string_scope.
Local Open Scope list_scope.
Local Open Scope Z_scope.

(** ** Exceptions and the error monad *)

Inductive exn : Type :=
| NameError (name : string)
| AttributeError (attr : string)
| KeyError (key : string)
| IndexError
| TypeError
| ZeroDivisionError
| FileNotFoundError (path : string)
| JSONDecodeError.

Inductive result (A : Type) : Type :=
| Ok (a : A)
| Raise (e : exn).

Arguments Ok {A} a.
Arguments Raise {A} e.

Definition rbind {A B : Type} (c : result A) (k : A -> result B) : result B :=
  match c with
  | Ok a => k a
  | Raise e => Raise e
  end.

Notation "'let!' x ':=' c 'in' k" := (rbind c (fun x => k))
  (at level 10, x name, c at level 100, k at level 200).
Notation "'let!' ' p ':=' c 'in' k" := (rbind c (fun x => let 'p := x in k))
  (at level 10, p strict pattern, c at level 100, k at level 200).

(** A [for] loop whose body may raise. *)
Fixpoint for_each {A S : Type} (body : S -> A -> result S)
    (l : list A) (s : S) : result S :=
  match l with
  | [] => Ok s
  | a :: rest => let! s' := body s a in for_each body rest s'
  end.

(** A [for i, a in enumerate(l)] loop. *)
Fixpoint for_enumerate {A S : Type} (body : S -> Z -> A -> result S)
    (i : Z) (l : list A) (s : S) : result S :=
  match l with
  | [] => Ok s
  | a :: rest =>
      let! s' := body s i a in for_enumerate body (i + 1) rest s'
  end.

(** ** Python text operations *)

Module Py.

Definition slash : ascii := "/"%char.

(** [s[:n]] *)
Fixpoint slice_to (n : nat) (s : string) : string :=
  match n, s with
  | S n', String c s' => String c (slice_to n' s')
  | _, _ => EmptyString
  end.

(** [s[n:]] *)
Fixpoint slice_from (n : nat) (s : string) : string :=
  match n, s with
  | S n', String _ s' => slice_from n' s'
  | _, _ => s
  end.

(** [s[:-1]] *)
Fixpoint drop_last (s : string) : string :=
  match s with
  | EmptyString => EmptyString
  | String c EmptyString => EmptyString
  | String c s' => String c (drop_last s')
  end.

(** [s.partition(sep)] for a one-character separator: the text before the
    first separator, the separator, the text after it; when the separator
    is absent the whole text and two empty strings. *)
Fixpoint find_sep (sep : ascii) (s : string) : option (string * string) :=
  match s with
  | EmptyString => None
  | String c s' =>
      if Ascii.eqb c sep then Some (EmptyString, s')
      else match find_sep sep s' with
           | Some (before, after) => Some (String c before, after)
           | None => None
           end
  end.

Definition partition (sep : ascii) (s : string) : string * string * string :=
  match find_sep sep s with
  | Some (before, after) => (before, String sep EmptyString, after)
  | None => (s, EmptyString, EmptyString)
  end.

(** [s.split(sep)] for a one-character separator. *)
Fixpoint split (sep : ascii) (s : string) : list string :=
  match s with
  | EmptyString => [EmptyString]
  | String c s' =>
      if Ascii.eqb c sep then EmptyString :: split sep s'
      else match split sep s' with
           | w :: ws => String c w :: ws
           | [] => [String c EmptyString]
           end
  end.

Definition startswith (p s : string) : bool := String.prefix p s.

Fixpoint endswith_char (c : ascii) (s : string) : bool :=
  match s with
  | EmptyString => false
  | String d EmptyString => Ascii.eqb d c
  | String _ s' => endswith_char c s'
  end.

(** [os.path.join(path, b)] on a POSIX system, and
    [os.path.join(a, *p)], which joins the components one by one. *)
Definition join_step (path b : string) : string :=
  if startswith "/" b then b
  else if String.eqb path "" || endswith_char slash path then path +:+ b
  else path +:+ "/" +:+ b.

Definition path_join (a : string) (p : list string) : string :=
  fold_left join_step p a.

(** A component without any slash. *)
Definition no_slash (c : string) : Prop :=
  slash ∉ list_ascii_of_string c.

(** ['/'.join(p)] *)
Fixpoint join_slash (p : list string) : string :=
  match p with
  | [] => EmptyString
  | [c] => c
  | c :: rest => c +:+ "/" +:+ join_slash rest
  end.

(** [l[i]] on a list, negative indices counting from the end. *)
Definition list_index {A : Type} (l : list A) (i : Z) : result A :=
  let n := Z.of_nat (List.length l) in
  let j := if i <? 0 then i + n else i in
  if (j <? 0) || (n <=? j) then Raise IndexError
  else match l !! Z.to_nat j with
       | Some a => Ok a
       | None => Raise IndexError
       end.

End Py.

(** ** Parsed JSON

    What [json.loads] returns.  Manifest coordinates are integer pixel
    values; JSON numbers with a fraction or an exponent are outside the
    model. *)

#[warnings="-register-all"]
Inductive json : Type :=
| JNull
| JBool (b : bool)
| JInt (n : Z)
| JStr (s : string)
| JArr (l : list json)
| JObj (o : gmap string json).

(** [v[k]] with a text key. *)
Definition subscript (v : json) (k : string) : result json :=
  match v with
  | JObj o => match o !! k with
              | Some x => Ok x
              | None => Raise (KeyError k)
              end
  | _ => Raise TypeError
  end.

(** [len(v)] *)
Definition py_len (v : json) : result Z :=
  match v with
  | JStr s => Ok (Z.of_nat (String.length s))
  | JArr l => Ok (Z.of_nat (List.length l))
  | JObj o => Ok (Z.of_nat (size o))
  | _ => Raise TypeError
  end.

(** [a + b]: integers (and booleans, which are integers) add, text and
    lists concatenate. *)
Definition as_int (v : json) : option Z :=
  match v with
  | JInt n => Some n
  | JBool b => Some (if b then 1 else 0)
  | _ => None
  end.

Definition py_add (a b : json) : result json :=
  match as_int a, as_int b with
  | Some x, Some y => Ok (JInt (x + y))
  | _, _ =>
      match a, b with
      | JStr s, JStr t => Ok (JStr (s +:+ t))
      | JArr l, JArr m => Ok (JArr (l ++ m))
      | _, _ => Raise TypeError
      end
  end.

(** Iterating a JSON value: the elements of a list, the keys of an object,
    the characters of a text. *)
Definition py_iter (v : json) : result (list json) :=
  match v with
  | JArr l => Ok l
  | JObj o => Ok (JStr <$> (map_to_list o).*1)
  | JStr s => Ok ((fun c => JStr (String c EmptyString)) <$> list_ascii_of_string s)
  | _ => Raise TypeError
  end.

(** ** The dataset adapter: class [GroundTruthDataset] *)

Section Dataset.

(** [json.loads] and [mx.image.imread] belong to libraries; the file
    system maps a path to the lines [readlines] returns. *)
Variable json_loads : string -> result json.
Variable image : Type.
Variable imread : string -> result image.

Record GroundTruthDataset : Type := {
  data_path : string;
  image_path : string;
  field_name : string;
  image_info : list json
}.

Definition open_readlines (fs : gmap string (list string)) (path : string)
  : result (list string) :=
  match fs !! path with
  | Some lines => Ok lines
  | None => Raise (FileNotFoundError path)
  end.

(** The body of the [for line in lines] loop of [__init__]. *)
Definition init_line (fname : string) (acc : list json) (line : string)
  : result (list json) :=
  let! info := json_loads (Py.drop_last line) in
  let! labels := subscript info fname in
  let! anns := subscript labels "annotations" in
  let! n := py_len anns in
  if n =? 0 then Ok acc else Ok (acc ++ [info]).

Fixpoint init_lines (fname : string) (acc : list json) (lines : list string)
  : result (list json) :=
  match lines with
  | [] => Ok acc
  | line :: rest =>
      let! acc' := init_line fname acc line in
      init_lines fname acc' rest
  end.

Definition manifest_path (dpath channel : string) : string :=
  Py.path_join dpath [channel +:+ ".manifest"].

(** [GroundTruthDataset.__init__] *)
Definition init (fs : gmap string (list string))
    (dpath channel ipath fname : string) : result GroundTruthDataset :=
  let! lines := open_readlines fs (manifest_path dpath channel) in
  let! infos := init_lines fname [] lines in
  Ok {| data_path := dpath; image_path := ipath;
        field_name := fname; image_info := infos |}.

(** [GroundTruthDataset.__len__] *)
Definition len (ds : GroundTruthDataset) : Z :=
  Z.of_nat (List.length (image_info ds)).

(** The conditional expression computing [source_ref]. *)
Definition source_ref_of (ref : string) : string :=
  if String.eqb (Py.slice_to 5 ref) "s3://"
  then (Py.partition Py.slash (Py.slice_from 5 ref)).2
  else ref.

(** One iteration of [for box in boxes]. *)
Definition label_row (box : json) : result (list json) :=
  let! x1 := subscript box "left" in
  let! y1 := subscript box "top" in
  let! bl := subscript box "left" in
  let! bw := subscript box "width" in
  let! x2 := py_add bl bw in
  let! bt := subscript box "top" in
  let! bh := subscript box "height" in
  let! y2 := py_add bt bh in
  Ok [x1; y1; x2; y2; JInt 0].

Fixpoint label_rows (label : list (list json)) (boxes : list json)
  : result (list (list json)) :=
  match boxes with
  | [] => Ok label
  | box :: rest =>
      let! row := label_row box in
      label_rows (label ++ [row]) rest
  end.

(** [GroundTruthDataset.__getitem__]; [np.array] keeps the rows as they
    are.  A source-ref that is not text makes the slicing or the [split]
    raise; the class of that exception depends on the value and is not
    distinguished here. *)
Definition getitem (ds : GroundTruthDataset) (idx : Z)
  : result (image * list (list json)) :=
  let! info := Py.list_index (image_info ds) idx in
  let! ref := subscript info "source-ref" in
  match ref with
  | JStr ref =>
      let source_ref := source_ref_of ref in
      let! img := imread (Py.path_join (image_path ds)
                                       (Py.split Py.slash source_ref)) in
      let! labels := subscript info (field_name ds) in
      let! boxes := subscript labels "annotations" in
      let! boxes := py_iter boxes in
      let! label := label_rows [] boxes in
      Ok (img, label)
  | _ => Raise TypeError
  end.

(** *** Reading a manifest entry *)

(** [len(info[field_name]['annotations'])] *)
Definition annotation_count (fname : string) (info : json) : result Z :=
  let! labels := subscript info fname in
  let! anns := subscript labels "annotations" in
  py_len anns.

Definition has_annotations (fname : string) (info : json) : bool :=
  match annotation_count fname info with
  | Ok n => negb (n =? 0)
  | Raise _ => false
  end.

(** An annotation with integer [left], [top], [width] and [height], and
    the row [[x1, y1, x2, y2, class]] of such a box. *)
Definition box_of (b : json) : option (Z * Z * Z * Z) :=
  match b with
  | JObj o =>
      match o !! "left", o !! "top", o !! "width", o !! "height" with
      | Some (JInt l), Some (JInt t), Some (JInt w), Some (JInt h) =>
          Some (l, t, w, h)
      | _, _, _, _ => None
      end
  | _ => None
  end.

Definition corner_row (b : Z * Z * Z * Z) : list json :=
  let '(l, t, w, h) := b in
  [JInt l; JInt t; JInt (l + w); JInt (t + h); JInt 0].

End Dataset.

(** ** Numbers and text formatting *)

Module Fmt.

Definition digits (n : Z) : string :=
  NilZero.string_of_uint (N.to_uint (Z.to_N n)).

Fixpoint zeros (k : nat) : string :=
  match k with
  | O => EmptyString
  | S k' => String "0"%char (zeros k')
  end.

(** Pad on the left with zeros up to [width] characters. *)
Definition zfill (width : nat) (s : string) : string :=
  zeros (width - String.length s) +:+ s.

(** ['{:04d}'.format(n)]: the sign counts in the width. *)
Definition d04 (n : Z) : string :=
  if n <? 0 then "-" +:+ zfill 3 (digits (- n)) else zfill 4 (digits n).

(** Nearest integer to [n / d] for [0 <= n], [0 < d], ties to even. *)
Definition round_half_even (n d : Z) : Z :=
  let q := n / d in
  let r := n mod d in
  match 2 * r ?= d with
  | Lt => q
  | Gt => q + 1
  | Eq => if Z.even q then q else q + 1
  end.

(** ['{:.4f}'.format(x)] *)
Definition f4 (x : Q) : string :=
  let n := Z.abs (Qnum x) * 10000 in
  let m := round_half_even n (Z.pos (Qden x)) in
  (if Qnum x <? 0 then "-" else "") +:+
  digits (m / 10000) +:+ "." +:+ zfill 4 (digits (m mod 10000)).

Definition tab : string := String (ascii_of_nat 9) EmptyString.
Definition newline : string := String (ascii_of_nat 10) EmptyString.

(** [range(a, b)] *)
Definition range (a b : Z) : list Z :=
  (fun i => a + Z.of_nat i) <$> seq 0 (Z.to_nat (b - a)).

End Fmt.

(** ** The framework interface

    Arrays, the network, the trainer, the metrics and the data loaders
    belong to the framework.  Their states are abstract and their methods
    are functions on these states. *)

Inductive metric_value : Type :=
| MSingle (name : string) (value : Q)
| MList (names : list string) (values : list Q).

Class Framework : Type := {
  NDArray : Type;
  Device : Type;
  Net : Type;
  Trainer : Type;
  EvalMetric : Type;
  LossMetric : Type;
  TrainLoader : Type;
  ValLoader : Type;
  (** [a + b] *)
  nd_add : NDArray -> NDArray -> NDArray;
  (** [a.clip(lo, hi)] *)
  nd_clip : NDArray -> Z -> Z -> NDArray;
  (** [a.slice_axis(axis=-1, begin=b, end=e)] *)
  nd_slice_last : NDArray -> Z -> Z -> NDArray;
  (** [a.shape[k]] *)
  nd_shape : NDArray -> Z -> Z;
  (** [gluon.utils.split_and_load(a, ctx_list=ctx, batch_axis=0,
      even_split=False)] *)
  split_and_load : NDArray -> list Device -> list NDArray;
  (** [net.set_nms(nms_thresh=t, nms_topk=k)] *)
  net_set_nms : Q -> Z -> Net -> Net;
  (** [net.hybridize()] *)
  net_hybridize : Net -> Net;
  (** [net(x)] in prediction mode: ids, scores, bboxes *)
  net_predict : Net -> NDArray -> (NDArray * NDArray * NDArray) * Net;
  (** [net(x, gt_boxes, *fixed_targets)] in training mode: the objectness,
      centre, scale and class losses *)
  net_losses : Net -> NDArray -> NDArray -> list NDArray ->
               (NDArray * NDArray * NDArray * NDArray) * Net;
  (** [autograd.backward(losses)] *)
  autograd_backward : Net -> list NDArray -> Net;
  (** [trainer.step(batch_size)] *)
  trainer_step : Trainer -> Net -> Z -> Trainer * Net;
  (** [trainer.learning_rate] *)
  trainer_learning_rate : Trainer -> Q;
  (** the detection metric: [reset], [update], [get] *)
  eval_reset : EvalMetric -> EvalMetric;
  eval_update : EvalMetric ->
                list NDArray -> list NDArray -> list NDArray ->
                list NDArray -> list NDArray -> EvalMetric;
  eval_get : EvalMetric -> metric_value;
  (** [mx.metric.Loss(name)], [update(0, losses)], [get()] *)
  loss_new : string -> LossMetric;
  loss_update : LossMetric -> list NDArray -> LossMetric;
  loss_get : LossMetric -> string * Q;
  (** [set_mixup(np.random.beta, 1.5, 1.5)] and [set_mixup(None)] on the
      dataset behind the training loader *)
  loader_set_mixup : bool -> TrainLoader -> TrainLoader;
  (** one pass over a loader: the batches it yields *)
  train_iter : TrainLoader -> list (list NDArray) * TrainLoader;
  val_iter : ValLoader -> list (list NDArray) * ValLoader
}.

(** The parsed command line, the fields the modelled functions read. *)
Record Args : Type := {
  network : string;
  data_shape : Z;
  batch_size : Z;
  num_workers : Z;
  num_gpus : Z;
  epochs : Z;
  start_epoch : Z;
  log_interval : Z;
  save_prefix : string;
  save_interval : Z;
  val_interval : Z;
  syncbn : bool;
  no_random_shape : bool;
  mixup : bool;
  no_mixup_epochs : Z;
  pretrained : bool;
  model_dir : string
}.

(** ** Checkpoints, validation and the training loop *)

Section Training.

Context {F : Framework}.

(** What the script itself emits: standard output, the training log and
    files.  The log records carry the formatted fields except the
    wall-clock ones. *)
Inductive pitem : Type :=
| PStr (s : string)
| PInt (n : Z).

Inductive output : Type :=
| Print (items : list pitem)
| LogArgs (args : Args)
| LogStart (epoch : Z)
| LogBatch (epoch i : Z) (lr : Q) (losses : list (string * Q))
| LogEpoch (epoch : Z) (losses : list (string * Q))
| LogValidation (epoch : Z) (result : metric_value)
| SaveParameters (net : Net) (file : string)
| AppendText (file : string) (text : string).

(** [save_params]: [best_map] is a list shared with the caller and
    updated in place, so the updated list is returned with the files
    written. *)
Definition save_params (net : Net) (best_map : list Q) (current_map : Q)
    (epoch save_interval : Z) (prefix : string)
  : result (list Q * list output) :=
  let! best := Py.list_index best_map 0 in
  let '(best_map, out) :=
    if Qlt_le_dec best current_map
    then (<[0%nat := current_map]> best_map,
          [SaveParameters net (prefix +:+ "_best.params");
           AppendText (prefix +:+ "_best_map.log")
                      (Fmt.d04 epoch +:+ ":" +:+ Fmt.tab +:+
                       Fmt.f4 current_map +:+ Fmt.newline)])
    else (best_map, []) in
  if negb (save_interval =? 0) && (epoch mod save_interval =? 0)
  then Ok (best_map,
           out ++ [SaveParameters net
                     (prefix +:+ "_" +:+ Fmt.d04 epoch +:+ "_" +:+
                      Fmt.f4 current_map +:+ ".params")])
  else Ok (best_map, out).

(** The state the training loop works on. *)
Record world : Type := {
  w_net : Net;
  w_trainer : Trainer;
  w_eval : EvalMetric;
  w_obj : LossMetric;
  w_center : LossMetric;
  w_scale : LossMetric;
  w_cls : LossMetric;
  w_train : TrainLoader;
  w_val : ValLoader;
  w_out : list output
}.

Definition with_net (n : Net) (w : world) : world :=
  {| w_net := n; w_trainer := w_trainer w; w_eval := w_eval w;
     w_obj := w_obj w; w_center := w_center w; w_scale := w_scale w;
     w_cls := w_cls w; w_train := w_train w; w_val := w_val w;
     w_out := w_out w |}.

Definition with_eval (m : EvalMetric) (w : world) : world :=
  {| w_net := w_net w; w_trainer := w_trainer w; w_eval := m;
     w_obj := w_obj w; w_center := w_center w; w_scale := w_scale w;
     w_cls := w_cls w; w_train := w_train w; w_val := w_val w;
     w_out := w_out w |}.

Definition with_train (l : TrainLoader) (w : world) : world :=
  {| w_net := w_net w; w_trainer := w_trainer w; w_eval := w_eval w;
     w_obj := w_obj w; w_center := w_center w; w_scale := w_scale w;
     w_cls := w_cls w; w_train := l; w_val := w_val w;
     w_out := w_out w |}.

Definition with_val (l : ValLoader) (w : world) : world :=
  {| w_net := w_net w; w_trainer := w_trainer w; w_eval := w_eval w;
     w_obj := w_obj w; w_center := w_center w; w_scale := w_scale w;
     w_cls := w_cls w; w_train := w_train w; w_val := l;
     w_out := w_out w |}.

Definition emit (o : list output) (w : world) : world :=
  {| w_net := w_net w; w_trainer := w_trainer w; w_eval := w_eval w;
     w_obj := w_obj w; w_center := w_center w; w_scale := w_scale w;
     w_cls := w_cls w; w_train := w_train w; w_val := w_val w;
     w_out := w_out w ++ o |}.

(** *** [validate] *)

Record detections : Type := {
  det_bboxes : list NDArray;
  det_ids : list NDArray;
  det_scores : list NDArray;
  gt_bboxes : list NDArray;
  gt_ids : list NDArray
}.

(** The body of [for x, y in zip(data, label)]. *)
Definition validate_slice (width : Z) (st : Net * detections)
    (xy : NDArray * NDArray) : Net * detections :=
  let '(net, d) := st in
  let '(x, y) := xy in
  let '((ids, scores, bboxes), net) := net_predict net x in
  (net,
   {| det_ids := det_ids d ++ [ids];
      det_scores := det_scores d ++ [scores];
      det_bboxes := det_bboxes d ++ [nd_clip bboxes 0 width];
      gt_ids := gt_ids d ++ [nd_slice_last y 4 5];
      gt_bboxes := gt_bboxes d ++ [nd_slice_last y 0 4] |}).

(** The body of [for batch in val_data]. *)
Definition validate_batch (ctx : list Device) (st : Net * EvalMetric)
    (batch : list NDArray) : result (Net * EvalMetric) :=
  let '(net, metric) := st in
  let! b0 := Py.list_index batch 0 in
  let data := split_and_load b0 ctx in
  let! b1 := Py.list_index batch 1 in
  let label := split_and_load b1 ctx in
  let empty := {| det_bboxes := []; det_ids := []; det_scores := [];
                  gt_bboxes := []; gt_ids := [] |} in
  let '(net, d) :=
    fold_left (validate_slice (nd_shape b0 2)) (zip data label)
              (net, empty) in
  Ok (net, eval_update metric (det_bboxes d) (det_ids d) (det_scores d)
                       (gt_bboxes d) (gt_ids d)).

Definition nms_thresh : Q := 45 # 100.
Definition nms_topk : Z := 400.

Definition validate (ctx : list Device) (w : world)
  : result (metric_value * world) :=
  let metric := eval_reset (w_eval w) in
  let net := net_set_nms nms_thresh nms_topk (w_net w) in
  let net := net_hybridize net in
  let '(batches, vl) := val_iter (w_val w) in
  let w := with_val vl w in
  match for_each (validate_batch ctx) batches (net, metric) with
  | Ok (net, metric) =>
      Ok (eval_get metric, with_eval metric (with_net net w))
  | Raise e => Raise e
  end.

(** *** What a validation run is to compute

    The description of [validate], stated on its own: the network
    predicts on the data slices of a batch one after the other; the
    metric is updated once per batch with the predicted boxes clipped to
    the image width, the predicted ids and scores, and the ground truth
    read off the label slices; the mean average precision is the reading
    of the metric after the last batch. *)




(** *** The batch loop of [train] *)

Record losses : Type := {
  sum_losses : list NDArray;
  obj_losses : list NDArray;
  center_losses : list NDArray;
  scale_losses : list NDArray;
  cls_losses : list NDArray
}.

Definition no_losses : losses :=
  {| sum_losses := []; obj_losses := []; center_losses := [];
     scale_losses := []; cls_losses := [] |}.

(** [[ft[ix] for ft in fixed_targets]] *)
Fixpoint targets_at (fixed_targets : list (list NDArray)) (ix : Z)
  : result (list NDArray) :=
  match fixed_targets with
  | [] => Ok []
  | ft :: rest =>
      let! t := Py.list_index ft ix in
      let! ts := targets_at rest ix in
      Ok (t :: ts)
  end.

(** The body of [for ix, x in enumerate(data)]. *)
Definition train_slice (gt_boxes : list NDArray)
    (fixed_targets : list (list NDArray))
    (st : Net * losses) (ix : Z) (x : NDArray) : result (Net * losses) :=
  let '(net, l) := st in
  let! gt := Py.list_index gt_boxes ix in
  let! ts := targets_at fixed_targets ix in
  let '((obj_loss, center_loss, scale_loss, cls_loss), net) :=
    net_losses net x gt ts in
  Ok (net,
      {| sum_losses := sum_losses l ++
           [nd_add (nd_add (nd_add obj_loss center_loss) scale_loss)
                   cls_loss];
         obj_losses := obj_losses l ++ [obj_loss];
         center_losses := center_losses l ++ [center_loss];
         scale_losses := scale_losses l ++ [scale_loss];
         cls_losses := cls_losses l ++ [cls_loss] |}).

(** [[split_and_load(batch[it], ...) for it in range(1, 6)]] *)
Fixpoint load_targets (ctx : list Device) (batch : list NDArray)
    (its : list Z) : result (list (list NDArray)) :=
  match its with
  | [] => Ok []
  | it :: rest =>
      let! b := Py.list_index batch it in
      let! more := load_targets ctx batch rest in
      Ok (split_and_load b ctx :: more)
  end.

Definition loss_names (w : world) : list (string * Q) :=
  [loss_get (w_obj w); loss_get (w_center w);
   loss_get (w_scale w); loss_get (w_cls w)].

(** The body of [for i, batch in enumerate(train_data)]. *)
Definition train_batch (ctx : list Device) (args : Args) (epoch : Z)
    (w : world) (i : Z) (batch : list NDArray) : result world :=
  let w := emit [Print [PStr "epoch "; PInt epoch;
                        PStr ", batch "; PInt i]] w in
  let! b0 := Py.list_index batch 0 in
  let bsize := nd_shape b0 0 in
  let data := split_and_load b0 ctx in
  let! fixed_targets := load_targets ctx batch (Fmt.range 1 6) in
  let! b6 := Py.list_index batch 6 in
  let gt_boxes := split_and_load b6 ctx in
  let! '(net, l) :=
    for_enumerate (train_slice gt_boxes fixed_targets) 0 data
                  (w_net w, no_losses) in
  let net := autograd_backward net (sum_losses l) in
  let '(trainer, net) := trainer_step (w_trainer w) net bsize in
  let w :=
    {| w_net := net; w_trainer := trainer; w_eval := w_eval w;
       w_obj := loss_update (w_obj w) (obj_losses l);
       w_center := loss_update (w_center w) (center_losses l);
       w_scale := loss_update (w_scale w) (scale_losses l);
       w_cls := loss_update (w_cls w) (cls_losses l);
       w_train := w_train w; w_val := w_val w; w_out := w_out w |} in
  if negb (log_interval args =? 0) &&
     ((i + 1) mod log_interval args =? 0)
  then Ok (emit [LogBatch epoch i (trainer_learning_rate trainer)
                          (loss_names w)] w)
  else Ok w.

(** *** The epoch loop of [train] *)

(** The mixup switches at the head of an epoch. *)
Definition epoch_mixup (args : Args) (epoch : Z) (w : world) : world :=
  if mixup args then
    let w := with_train (loader_set_mixup true (w_train w)) w in
    if epochs args - no_mixup_epochs args <=? epoch
    then with_train (loader_set_mixup false (w_train w)) w
    else w
  else w.

(** [mean_ap[-1]] when the metric reports a list, the value itself
    otherwise. *)
Definition current_map_of (r : metric_value) : result Q :=
  match r with
  | MList _ values => Py.list_index values (-1)
  | MSingle _ value => Ok value
  end.

(** The validation branch: the map handed to [save_params]. *)
Definition epoch_validation (ctx : list Device) (args : Args) (epoch : Z)
    (w : world) : result (Q * world) :=
  if val_interval args =? 0 then Raise ZeroDivisionError
  else if (epoch + 1) mod val_interval args =? 0 then
    let w := emit [Print [PStr "validate:"; PInt (epoch + 1)]] w in
    let! '(r, w) := validate ctx w in
    let w := emit [Print [PStr "MAP PRINTINNNNNNGGGG"]] w in
    let! current_map := current_map_of r in
    Ok (current_map, emit [LogValidation epoch r] w)
  else Ok (0%Q, w).

(** One iteration of [for epoch in range(start_epoch, epochs)]. *)
Definition train_epoch (ctx : list Device) (args : Args)
    (st : world * list Q) (epoch : Z) : result (world * list Q) :=
  let '(w, best_map) := st in
  let w := epoch_mixup args epoch w in
  let w := with_net (net_hybridize (w_net w)) w in
  let '(batches, tl) := train_iter (w_train w) in
  let w := with_train tl w in
  let! w := for_enumerate (train_batch ctx args epoch) 0 batches w in
  let w := emit [LogEpoch epoch (loss_names w)] w in
  let! '(current_map, w) := epoch_validation ctx args epoch w in
  let! '(best_map, files) :=
    save_params (w_net w) best_map current_map epoch (save_interval args)
                (Py.path_join (model_dir args) ["yolov3"]) in
  Ok (emit files w, best_map).

(** [train], from the creation of the loss metrics on.  The statements
    before (parameter contexts, weight-decay multipliers, the learning
    rate schedule, the trainer and the log file) build the network and
    the trainer the loop starts from. *)
Definition initial_world (net : Net) (trainer : Trainer)
    (train_data : TrainLoader) (val_data : ValLoader)
    (eval_metric : EvalMetric) (args : Args) : world :=
  {| w_net := net; w_trainer := trainer; w_eval := eval_metric;
     w_obj := loss_new "ObjLoss";
     w_center := loss_new "BoxCenterLoss";
     w_scale := loss_new "BoxScaleLoss";
     w_cls := loss_new "ClassLoss";
     w_train := train_data; w_val := val_data;
     w_out := [LogArgs args; LogStart (start_epoch args)] |}.

Definition train (net : Net) (trainer : Trainer) (train_data : TrainLoader)
    (val_data : ValLoader) (eval_metric : EvalMetric)
    (ctx : list Device) (args : Args) : result (world * list Q) :=
  let w := initial_world net trainer train_data val_data eval_metric
                         args in
  let best_map := [0%Q] in
  for_each (train_epoch ctx args)
           (Fmt.range (start_epoch args) (epochs args)) (w, best_map).

(** *** Reading the behaviour off a run *)

(** The files of a best-model checkpoint and of a periodic one. *)
Definition best_files (net : Net) (prefix : string) (epoch : Z)
    (current_map : Q) : list output :=
  [SaveParameters net (prefix +:+ "_best.params");
   AppendText (prefix +:+ "_best_map.log")
              (Fmt.d04 epoch +:+ ":" +:+ Fmt.tab +:+
               Fmt.f4 current_map +:+ Fmt.newline)].

Definition periodic_files (net : Net) (prefix : string) (epoch : Z)
    (current_map : Q) : list output :=
  [SaveParameters net (prefix +:+ "_" +:+ Fmt.d04 epoch +:+ "_" +:+
                       Fmt.f4 current_map +:+ ".params")].

(** Whether a list of outputs has a line appended to a file: only a
    best-model checkpoint comes with one. *)
Definition is_append (o : output) : bool :=
  match o with
  | AppendText _ _ => true
  | _ => false
  end.

Definition wrote_best (files : list output) : bool :=
  existsb is_append files.

(** A sequence of [save_params] calls on one shared [best_map] list:
    after each call, the list and the files of that call. *)
Record save_call : Type := {
  sc_net : Net;
  sc_map : Q;
  sc_epoch : Z;
  sc_interval : Z;
  sc_prefix : string
}.

Fixpoint save_params_calls (best_map : list Q) (calls : list save_call)
  : result (list (list Q * list output)) :=
  match calls with
  | [] => Ok []
  | c :: rest =>
      let! '(best_map, files) :=
        save_params (sc_net c) best_map (sc_map c) (sc_epoch c)
                    (sc_interval c) (sc_prefix c) in
      let! more := save_params_calls best_map rest in
      Ok ((best_map, files) :: more)
  end.



(** Whether [(epoch + 1)] is a multiple of [args.val_interval]. *)
Definition validates (args : Args) (epoch : Z) : bool :=
  (epoch + 1) mod val_interval args =? 0.

(** The arguments of the network for the device slice [j] of a batch, and
    what the network returns slice after slice. *)
Definition slice_at (data gt_boxes : list NDArray)
    (fixed_targets : list (list NDArray)) (j : nat)
  : option (NDArray * NDArray * list NDArray) :=
  x ← data !! j;
  gt ← gt_boxes !! j;
  ts ← mapM (fun ft : list NDArray => ft !! j) fixed_targets;
  Some (x, gt, ts).

Fixpoint slice_outputs (net : Net)
    (slices : list (NDArray * NDArray * list NDArray))
  : list (NDArray * NDArray * NDArray * NDArray) * Net :=
  match slices with
  | [] => ([], net)
  | (x, gt, ts) :: rest =>
      let '(o, net) := net_losses net x gt ts in
      let '(os, net) := slice_outputs net rest in
      (o :: os, net)
  end.

Definition obj_of (o : NDArray * NDArray * NDArray * NDArray) : NDArray :=
  o.1.1.1.
Definition center_of (o : NDArray * NDArray * NDArray * NDArray)
  : NDArray := o.1.1.2.
Definition scale_of (o : NDArray * NDArray * NDArray * NDArray)
  : NDArray := o.1.2.
Definition cls_of (o : NDArray * NDArray * NDArray * NDArray) : NDArray :=
  o.2.

Definition loss_sum (o : NDArray * NDArray * NDArray * NDArray)
  : NDArray :=
  let '(obj_loss, center_loss, scale_loss, cls_loss) := o in
  nd_add (nd_add (nd_add obj_loss center_loss) scale_loss) cls_loss.

End Training.

(** ** Data loaders: [get_dataloader] *)

Section Loaders.

(** The network and dataset objects handed to the constructors. *)
Variables (N D : Type).

Inductive transform : Type :=
| YOLO3DefaultTrainTransform (width height : Z) (net : N) (mixup : bool)
| YOLO3DefaultValTransform (width height : Z).

Inductive batchify : Type :=
| Stack
| Pad (axis : option Z) (pad_val : Z).

(** The two loader constructors with the arguments they are given;
    [DataLoader] receives [dataset.transform(t)]. *)
Inductive loader : Type :=
| DataLoader (dataset : D) (t : transform) (batch_size : Z)
    (shuffle : bool) (batchify_fn : list batchify) (last_batch : string)
    (num_workers : Z)
| RandomTransformDataLoader (transform_fns : list transform) (dataset : D)
    (batch_size interval : Z) (last_batch : string) (shuffle : bool)
    (batchify_fn : list batchify) (num_workers : Z).

Definition get_dataloader (net : N) (train_dataset val_dataset : D)
    (dshape bsize nworkers : Z) (args : Args)
  : loader * loader * list string :=
  let width := dshape in
  let height := dshape in
  let batchify_fn :=
    ((fun _ => Stack) <$> Fmt.range 0 6) ++
    ((fun _ => Pad (Some 0) (-1)) <$> Fmt.range 0 1) in
  let '(train_loader, printed) :=
    if no_random_shape args then
      (DataLoader train_dataset
         (YOLO3DefaultTrainTransform width height net (mixup args))
         bsize true batchify_fn "discard" nworkers,
       ["no random shape"])
    else
      let transform_fns :=
        (fun x => YOLO3DefaultTrainTransform (x * 32) (x * 32) net
                    (mixup args)) <$> Fmt.range 10 20 in
      (RandomTransformDataLoader transform_fns train_dataset bsize 10
         "discard" true batchify_fn nworkers,
       ["with random shape"]) in
  let val_batchify_fn := [Stack; Pad None (-1)] in
  let val_loader :=
    DataLoader val_dataset (YOLO3DefaultValTransform width height)
               bsize true val_batchify_fn "discard" nworkers in
  (train_loader, val_loader, printed).

(** The tuple of six [Stack] and one [Pad(axis=0, pad_val=-1)]. *)
Definition batchify7 : list batchify :=
  [Stack; Stack; Stack; Stack; Stack; Stack; Pad (Some 0) (-1)].

End Loaders.

Arguments YOLO3DefaultTrainTransform {N} width height net mixup.
Arguments YOLO3DefaultValTransform {N} width height.
Arguments DataLoader {N D} dataset t batch_size shuffle batchify_fn
  last_batch num_workers.
Arguments RandomTransformDataLoader {N D} transform_fns dataset batch_size
  interval last_batch shuffle batchify_fn num_workers.
Arguments get_dataloader {N D} net train_dataset val_dataset dshape bsize
  nworkers args.

(** ** Network construction in the main block *)

Inductive mx_context : Type :=
| mx_gpu (i : Z)
| mx_cpu.

(** A call of [get_model]: the name and the keyword arguments passed. *)
Record get_model : Type := {
  gm_name : string;
  gm_pretrained : option bool;
  gm_pretrained_base : option bool;
  gm_num_sync_bn_devices : option Z
}.

(** [async_net] is either the object [net] itself or a model of its own. *)
Inductive async_model : Type :=
| AsyncIsNet
| AsyncOwn (call : get_model).

(** A flag declared with [action='store_true'] or [action='store_false']. *)
Definition store_true (opt : string) (argv : list string) : bool :=
  bool_decide (opt ∈ argv).

Definition store_false (opt : string) (argv : list string) : bool :=
  negb (bool_decide (opt ∈ argv)).

Definition pretrained_flag (argv : list string) : bool :=
  store_false "--pretrained" argv.

Definition training_contexts (args : Args) : list mx_context :=
  let ctx := mx_gpu <$> Fmt.range 0 (num_gpus args) in
  match ctx with
  | [] => [mx_cpu]
  | _ => ctx
  end.

Definition sync_bn_devices (args : Args) : Z :=
  if syncbn args then Z.of_nat (List.length (training_contexts args))
  else -1.

Definition main_network (args : Args)
  : get_model * async_model * list string :=
  let net_name := network args in
  let num_sync_bn_devices := sync_bn_devices args in
  if 1 <? num_sync_bn_devices then
    let '(net, printed) :=
      if pretrained args then
        ({| gm_name := net_name; gm_pretrained := Some true;
            gm_pretrained_base := None;
            gm_num_sync_bn_devices := Some num_sync_bn_devices |},
         ["use pretrained weights of coco"])
      else
        ({| gm_name := net_name; gm_pretrained := None;
            gm_pretrained_base := Some true;
            gm_num_sync_bn_devices := Some num_sync_bn_devices |},
         ["use pretrained weights of mxnet"]) in
    (net,
     AsyncOwn {| gm_name := net_name; gm_pretrained := None;
                 gm_pretrained_base := Some false;
                 gm_num_sync_bn_devices := None |},
     "num_sync_bn_devices > 1" :: printed)
  else
    ({| gm_name := net_name; gm_pretrained := Some true;
        gm_pretrained_base := None; gm_num_sync_bn_devices := None |},
     AsyncIsNet,
     ["num_sync_bn_devices <= 1"]).

(** ** Names: module initialisation and [validate_train]

    A name read inside a function that is neither a parameter nor assigned
    in its body is looked up in the module's globals and then in the
    builtins, at the time of the read.  The objects bound to names are
    kept as far as the lookups need them. *)

#[warnings="-register-all"]
Inductive pyobj : Type :=
| PModule
| PFunction
| PClass
| PBool (b : bool)
| PNamespace (attrs : gmap string pyobj)
| PLoader (batches : nat)
| PValue.

Abbreviation globals := (gmap string pyobj).

(** The builtins the script refers to. *)
Definition builtins : list string :=
  ["print"; "len"; "range"; "int"; "float"; "open"; "list"; "zip";
   "enumerate"; "isinstance"; "AttributeError"].

(** The globals of a module before its first statement runs. *)
Definition initial_globals : globals :=
  list_to_map ((fun name => (name, PValue)) <$>
               ["__name__"; "__doc__"; "__package__"; "__loader__";
                "__spec__"; "__file__"; "__builtins__"]).

Definition load (G : globals) (name : string) : result pyobj :=
  match G !! name with
  | Some o => Ok o
  | None => if bool_decide (name ∈ builtins) then Ok PValue
            else Raise (NameError name)
  end.

(** [o.attr]: a namespace has the attributes it was given; modules,
    classes and framework objects are taken to provide what is asked. *)
Definition getattr (o : pyobj) (attr : string) : result pyobj :=
  match o with
  | PNamespace attrs =>
      match attrs !! attr with
      | Some v => Ok v
      | None => Raise (AttributeError attr)
      end
  | PBool _ => Raise (AttributeError attr)
  | _ => Ok PValue
  end.

Definition truthy (o : pyobj) : bool :=
  match o with
  | PBool b => b
  | PLoader n => negb (Nat.eqb n 0)
  | _ => true
  end.

Definition iterate (o : pyobj) : result (list pyobj) :=
  match o with
  | PLoader n => Ok (replicate n PValue)
  | _ => Raise TypeError
  end.

(** Module-level statements act on the globals. *)
Definition stmt : Type := globals -> result globals.

Definition import_as (name : string) : stmt :=
  fun G => Ok (<[name := PModule]> G).

(** An expression statement or the right-hand side of an assignment: the
    names it reads, in evaluation order. *)
Definition reads (names : list string) : stmt :=
  fun G => for_each (fun G name => let! _ := load G name in Ok G) names G.

Definition bind_name (name : string) (o : pyobj) : stmt :=
  fun G => Ok (<[name := o]> G).

Definition read_attr (name attr : string) : stmt :=
  fun G => let! o := load G name in let! _ := getattr o attr in Ok G.

Definition run (body : list stmt) : stmt :=
  fun G => for_each (fun G s => s G) body G.

(** The destinations declared by [parse_args]. *)
Definition parse_args_dests : list string :=
  ["network"; "data_shape"; "batch_size"; "num_workers"; "num_gpus";
   "epochs"; "resume"; "start_epoch"; "lr"; "optimizer"; "lr_mode";
   "lr_decay"; "lr_decay_period"; "lr_decay_epoch"; "warmup_lr";
   "warmup_epochs"; "momentum"; "wd"; "log_interval"; "save_prefix";
   "save_interval"; "val_interval"; "seed"; "num_samples"; "syncbn";
   "no_random_shape"; "no_wd"; "mixup"; "no_mixup_epochs"; "pretrained";
   "output_data_dir"; "model_dir"; "train"; "test"; "images";
   "label_smooth"].

Definition parse_args_namespace : pyobj :=
  PNamespace (list_to_map ((fun d => (d, PValue)) <$> parse_args_dests)).

(** Lines 6-12: the standard-library imports. *)
Definition builtin_imports : list stmt :=
  import_as <$> ["argparse"; "json"; "logging"; "os"; "subprocess"; "time";
                 "warnings"].

(** Line 15: [subprocess.call([sys.executable, '-m', 'pip', 'install',
    '--upgrade', 'gluoncv'])]. *)
Definition pip_upgrade : list stmt :=
  [read_attr "subprocess" "call"; read_attr "sys" "executable"].

(** Lines 18-33: the framework imports. *)
Definition framework_imports : list stmt :=
  import_as <$> ["gcv"; "gdata"; "gutils"; "Tuple"; "Stack"; "Pad";
                 "RandomTransformDataLoader"; "YOLO3DefaultTrainTransform";
                 "YOLO3DefaultValTransform"; "get_model";
                 "COCODetectionMetric"; "LRScheduler"; "LRSequential";
                 "VOC07MApMetric"; "mx"; "nd"; "gluon"; "autograd"; "np"].

(** Lines 36-279: the function and class definitions. *)
Definition definitions : list stmt :=
  [bind_name "parse_args" PFunction;
   read_attr "gluon" "data"; bind_name "GroundTruthDataset" PClass;
   bind_name "get_dataset" PFunction;
   bind_name "get_dataloader" PFunction;
   bind_name "save_params" PFunction;
   bind_name "validate" PFunction;
   bind_name "validate_train" PFunction;
   bind_name "train" PFunction].

(** Lines 419-467: the main block up to the call of [train]. *)
Definition main_setup : list stmt :=
  [reads ["parse_args"]; bind_name "args" parse_args_namespace;
   reads ["gutils"]; read_attr "args" "seed";
   reads ["range"]; read_attr "args" "num_gpus"; bind_name "ctx" PValue;
   reads ["ctx"]; bind_name "ctx" PValue;
   read_attr "args" "network"; bind_name "net_name" PValue;
   read_attr "args" "save_prefix"; reads ["net_name"];
   read_attr "args" "syncbn"; bind_name "num_sync_bn_devices" PValue;
   bind_name "net" PValue;
   reads ["num_sync_bn_devices"; "print"; "get_model"; "net_name"];
   bind_name "net" PValue; reads ["net"]; bind_name "async_net" PValue;
   read_attr "args" "resume"; reads ["warnings"; "net"; "async_net"];
   reads ["get_dataset"; "args"];
   bind_name "train_dataset" PValue; bind_name "val_dataset" PValue;
   bind_name "eval_metric" PValue;
   reads ["get_dataloader"; "async_net"; "train_dataset"; "val_dataset"];
   read_attr "args" "data_shape"; read_attr "args" "batch_size";
   read_attr "args" "num_workers"; reads ["args"];
   bind_name "train_data" (PLoader 1); bind_name "val_data" (PLoader 1)].

Definition main_train : list stmt :=
  [reads ["train"; "net"; "train_data"; "val_data"; "eval_metric"; "ctx";
          "args"]].

(** The module body; [as_main] tells whether [__name__ == '__main__']. *)
Definition module_body (as_main : bool) : list stmt :=
  builtin_imports ++ pip_upgrade ++ framework_imports ++ definitions ++
  [reads ["__name__"]] ++
  (if as_main then main_setup ++ main_train else []).


(** [validate_train(net, train_data, ctx, eval_metric)]: the parameters
    and the names assigned in the body are locals; [gcv], [args],
    [val_data], [gluon], [zip] and [gt_difficults] are read from the
    globals [G]. *)
Definition validate_train_batch (G : globals) (_ : unit) (batch : pyobj)
  : result unit :=
  let! _ := load G "gluon" in
  let! _ := load G "gluon" in
  let! _ := load G "zip" in
  let! _ := load G "zip" in
  let! _ := load G "gt_difficults" in
  Ok tt.

Definition validate_train (G : globals) : result unit :=
  let! gcv := load G "gcv" in
  let! _ := getattr gcv "nn" in
  let! a := load G "args" in
  let! dh := getattr a "disable_hybridization" in
  let! _ := (if truthy dh then Ok PValue
             else let! a := load G "args" in getattr a "static_alloc") in
  let! vd := load G "val_data" in
  let! batches := iterate vd in
  for_each (validate_train_batch G) batches tt.



(** ** Concrete inputs

    A two-line manifest with its parsed form, and a framework over integer
    scalars, on which the functions above can be run. *)

Module Demo.

Definition box (l t w h : Z) : json :=
  JObj (list_to_map [("left", JInt l); ("top", JInt t);
                     ("width", JInt w); ("height", JInt h);
                     ("class_id", JInt 0)]).

Definition labels_of (boxes : list json) : gmap string json :=
  list_to_map [("annotations", JArr boxes)].

Definition fields_of (ref : string) (boxes : list json)
  : gmap string json :=
  list_to_map [("source-ref", JStr ref);
               ("labels", JObj (labels_of boxes))].

Definition cat_ref : string := "s3://bucket/imgs/cat.jpg".
Definition cat_boxes : list json := [box 10 20 30 40; box 1 2 3 4].

Definition cat : json := JObj (fields_of cat_ref cat_boxes).

Definition empty_street : json :=
  JObj (fields_of "s3://bucket/imgs/street.jpg" []).

(** The text of a manifest line stands for its parsed value. *)
Definition loads (text : string) : result json :=
  if String.eqb text "cat" then Ok cat
  else if String.eqb text "street" then Ok empty_street
  else Raise JSONDecodeError.

Definition files : gmap string (list string) :=
  {[ "data/train.manifest" := ["cat" +:+ Fmt.newline;
                               "street" +:+ Fmt.newline] ]}.

Definition imread (path : string) : result string := Ok path.

Definition dataset : GroundTruthDataset :=
  {| data_path := "data"; image_path := "images"; field_name := "labels";
     image_info := [cat] |}.

#[export] Instance scalars : Framework := {|
  NDArray := Z;
  Device := unit;
  Net := list Z;
  Trainer := Z;
  EvalMetric := list Z;
  LossMetric := string * list Z;
  TrainLoader := list (list Z);
  ValLoader := list (list Z);
  nd_add := Z.add;
  nd_clip := fun a lo hi => Z.max lo (Z.min a hi);
  nd_slice_last := fun a b e => a;
  nd_shape := fun a k => 1;
  split_and_load := fun a ctx => (fun _ => a) <$> ctx;
  net_set_nms := fun t k net => net;
  net_hybridize := fun net => net;
  net_predict := fun net x => ((x, x, x), net);
  net_losses := fun net x gt ts => ((x, gt, foldr Z.add 0 ts, 1), net);
  autograd_backward := fun net ls => net ++ ls;
  trainer_step := fun t net b => (t + b, net);
  trainer_learning_rate := fun t => 1 # 1000;
  eval_reset := fun m => [];
  eval_update := fun m b i s gb gi => m ++ b;
  eval_get := fun m => MSingle "mAP" (1 # 2);
  loss_new := fun name => (name, []);
  loss_update := fun m ls => (m.1, m.2 ++ ls);
  loss_get := fun m => (m.1, 0%Q);
  loader_set_mixup := fun b l => l;
  train_iter := fun l => (l, l);
  val_iter := fun l => (l, l)
|}.

Definition args : Args := {|
  network := "yolo3_darknet53_coco"; data_shape := 320; batch_size := 4;
  num_workers := 0; num_gpus := 2; epochs := 4; start_epoch := 0;
  log_interval := 100; save_prefix := ""; save_interval := 10;
  val_interval := 2; syncbn := false; no_random_shape := false;
  mixup := false; no_mixup_epochs := 20; pretrained := true;
  model_dir := "/opt/ml/model"
|}.

Definition batch : list Z := [1; 2; 3; 4; 5; 6; 7].

Definition start : world :=
  initial_world (F := scalars) [] 0 [batch] [[5; 6]] [] args.

Definition calls : list save_call :=
  [ {| sc_net := [] : @Net scalars; sc_map := 0; sc_epoch := 0;
       sc_interval := 10; sc_prefix := "yolov3" |};
    {| sc_net := [1]; sc_map := 1 # 2; sc_epoch := 1;
       sc_interval := 10; sc_prefix := "yolov3" |};
    {| sc_net := [1; 2]; sc_map := 1 # 4; sc_epoch := 2;
       sc_interval := 10; sc_prefix := "yolov3" |} ].

End Demo.

(** [args] with another value of [pretrained]. *)
Definition with_pretrained (b : bool) (a : Args) : Args :=
  {| network := network a; data_shape := data_shape a;
     batch_size := batch_size a; num_workers := num_workers a;
     num_gpus := num_gpus a; epochs := epochs a;
     start_epoch := start_epoch a; log_interval := log_interval a;
     save_prefix := save_prefix a; save_interval := save_interval a;
     val_interval := val_interval a; syncbn := syncbn a;
     no_random_shape := no_random_shape a; mixup := mixup a;
     no_mixup_epochs := no_mixup_epochs a; pretrained := b;
     model_dir := model_dir a |}.

(** ** Further inputs

    Manifest entries and manifests for the edge cases of the adapter. *)

Module Cases.

(** An entry without the annotation task. *)
Definition no_labels : json :=
  JObj (list_to_map [("source-ref", JStr "s3://bucket/imgs/dog.jpg")]).

(** An entry whose source-ref names a bucket and nothing else. *)
Definition bucket_only : json :=
  JObj (Demo.fields_of "s3://bucket" Demo.cat_boxes).

Definition loads (text : string) : result json :=
  if String.eqb text "cat" then Ok Demo.cat
  else if String.eqb text "street" then Ok Demo.empty_street
  else if String.eqb text "dog" then Ok no_labels
  else Raise JSONDecodeError.

Definition line (text : string) : string := text +:+ Fmt.newline.


(** The same lines with and without the final newline. *)
Definition unterminated : gmap string (list string) :=
  {[ "data/train.manifest" := [line "street"; "cat}"] ]}.

Definition terminated : gmap string (list string) :=
  {[ "data/train.manifest" := [line "street"; line "cat"] ]}.

Definition bucket_dataset : GroundTruthDataset :=
  {| data_path := "data"; image_path := "images"; field_name := "labels";
     image_info := [bucket_only] |}.

End Cases.

(** ** Reading more off a run *)

Section Observations.

Context {F : Framework}.

(** The batch index of a batch log record. *)
Definition logged_batch (o : output) : option Z :=
  match o with
  | LogBatch _ i _ _ => Some i
  | _ => None
  end.

(** Whether [args.log_interval] asks for a record after batch [i]. *)
Definition logs_batch (args : Args) (i : Z) : bool :=
  negb (log_interval args =? 0) && ((i + 1) mod log_interval args =? 0).

(** The number of lines appended to the best-map log. *)
Definition best_logs (out : list output) : nat :=
  length (List.filter is_append out).

(** [args.save_prefix + '_train.log'], the file behind the handler that
    [train] adds to the root logger. *)
Definition log_file_path (args : Args) : string :=
  save_prefix args +:+ "_train.log".

(** The file an output is written to: a log record goes to the training
    log, a checkpoint and a best-map line to the file named; what is
    printed goes to no file. *)
Definition file_of (args : Args) (o : output) : option string :=
  match o with
  | Print _ => None
  | LogArgs _ => Some (log_file_path args)
  | LogStart _ => Some (log_file_path args)
  | LogBatch _ _ _ _ => Some (log_file_path args)
  | LogEpoch _ _ => Some (log_file_path args)
  | LogValidation _ _ => Some (log_file_path args)
  | SaveParameters _ file => Some file
  | AppendText file _ => Some file
  end.


(** Where [train] has its checkpoints and the best-map log. *)
Definition placed (args : Args) (o : output) : Prop :=
  match o with
  | SaveParameters _ file =>
      String.prefix (Py.path_join (model_dir args) ["yolov3"] +:+ "_") file
      = true
  | AppendText file _ =>
      file = Py.path_join (model_dir args) ["yolov3"] +:+ "_best_map.log"
  | _ => True
  end.

(** The character between the parts of a checkpoint's file name. *)
Definition underscore : ascii := "_"%char.

(** What the batch loop emits. *)
Definition batch_output (o : output) : bool :=
  match o with
  | Print _ => true
  | LogBatch _ _ _ _ => true
  | _ => false
  end.

End Observations.

(** Globals in which [args] offers the attributes [validate_train] asks
    for. *)
Module Hybrid.

Definition args_with (hybrid_off : bool) : pyobj :=
  PNamespace {[ "disable_hybridization" := PBool hybrid_off ]}.

Definition base : globals :=
  <["gluon" := PModule]>
    (<["gcv" := PModule]> (<["args" := args_with true]> initial_globals)).

Definition with_batches (n : nat) : globals :=
  <["val_data" := PLoader n]> base.

End Hybrid.

(** ** The datasets: [get_dataset] *)

Section GetDataset.

Variable json_loads : string -> result json.
(** [os.listdir] *)
Variable listdir : string -> result (list string).

(** The fields of [args] that [get_dataset] reads, and [num_samples],
    which it also writes. *)
Record DataArgs : Type := {
  a_train : string;
  a_test : string;
  a_images : string;
  a_num_samples : Z;
  a_mixup : bool
}.

(** The training set as returned: the adapter itself, or the adapter
    wrapped in [MixupDetection]. *)
Inductive train_set : Type :=
| Plain (ds : GroundTruthDataset)
| MixupDetection (ds : GroundTruthDataset).

(** [VOC07MApMetric(iou_thresh=...)] *)
Record voc07_metric : Type := { iou_thresh : Q }.

Record datasets : Type := {
  d_train : train_set;
  d_val : GroundTruthDataset;
  d_metric : voc07_metric;
  d_num_samples : Z;
  d_printed : list (list string)
}.

Definition get_dataset (fs : gmap string (list string)) (args : DataArgs)
  : result datasets :=
  let! top := listdir "/opt/ml/input/data/" in
  let! sub := listdir "/opt/ml/input/data/train/" in
  let! train_dataset :=
    init json_loads fs (a_train args) "train" (a_images args) "labels" in
  let! val_dataset :=
    init json_loads fs (a_test args) "validation" (a_images args)
         "labels" in
  let val_metric := {| iou_thresh := 1 # 2 |} in
  let num_samples :=
    if a_num_samples args <? 0 then len train_dataset
    else a_num_samples args in
  let train_dataset :=
    if a_mixup args then MixupDetection train_dataset
    else Plain train_dataset in
  Ok {| d_train := train_dataset; d_val := val_dataset;
        d_metric := val_metric; d_num_samples := num_samples;
        d_printed := [top; sub] |}.

Definition unwrap (t : train_set) : GroundTruthDataset :=
  match t with
  | Plain ds => ds
  | MixupDetection ds => ds
  end.

End GetDataset.


Module Sets.

Definition listdir (path : string) : result (list string) :=
  if String.eqb path "/opt/ml/input/data/" then Ok ["train"; "test"]
  else if String.eqb path "/opt/ml/input/data/train/"
       then Ok ["train.manifest"]
       else Raise (FileNotFoundError path).

Definition files : gmap string (list string) :=
  <[ "test/validation.manifest" := [Cases.line "cat"] ]>
    (<[ "train/train.manifest" :=
          [Cases.line "cat"; Cases.line "street"; Cases.line "cat"] ]> ∅).

Definition train_only : gmap string (list string) :=
  {[ "train/train.manifest" := [Cases.line "cat"] ]}.

Definition args : DataArgs :=
  {| a_train := "train"; a_test := "test"; a_images := "images";
     a_num_samples := -1; a_mixup := true |}.

End Sets.

(** The demonstration arguments with [val_interval] 0 and a batch log
    after every batch. *)
Definition no_validation_args : Args :=
  {| network := "yolo3_darknet53_coco"; data_shape := 320; batch_size := 4;
     num_workers := 0; num_gpus := 2; epochs := 4; start_epoch := 0;
     log_interval := 1; save_prefix := ""; save_interval := 10;
     val_interval := 0; syncbn := false; no_random_shape := false;
     mixup := false; no_mixup_epochs := 20; pretrained := true;
     model_dir := "/opt/ml/model" |}.

(** * Properties *)

(** ** Indexing *)

Lemma list_index_nat {A : Type} (l : list A) (n : nat) (a : A) :
  l !! n = Some a -> Py.list_index l (Z.of_nat n) = Ok a.
Proof.
  intros Hl. unfold Py.list_index.
  pose proof (lookup_lt_Some _ _ _ Hl) as Hlt.
  destruct (Z.ltb_spec (Z.of_nat n) 0) as [Hneg | _]; [lia |].
  destruct (Z.ltb_spec (Z.of_nat n) 0) as [Hneg | _]; [lia |].
  destruct (Z.leb_spec (Z.of_nat (length l)) (Z.of_nat n)) as [Hge | _];
    [lia |].
  simpl. rewrite Nat2Z.id, Hl. reflexivity.
Qed.

Lemma list_index_head {A : Type} (l : list A) (a : A) :
  l !! 0%nat = Some a -> Py.list_index l 0 = Ok a.
Proof. apply (list_index_nat l 0). Qed.

(** ** Paths *)

Section PathFacts.

Lemma append_assoc (a b c : string) : (a +:+ b) +:+ c = a +:+ b +:+ c.
Proof.
  induction a as [| x a IH]; [reflexivity |].
  change (String x ((a +:+ b) +:+ c) = String x (a +:+ b +:+ c)).
  rewrite IH. reflexivity.
Qed.

Lemma split_not_nil (s : string) : Py.split Py.slash s <> [].
Proof.
  destruct s as [| c s]; cbn; [discriminate |].
  destruct (Ascii.eqb c Py.slash); [discriminate |].
  destruct (Py.split Py.slash s); discriminate.
Qed.

Lemma join_slash_cons (c : ascii) (w : string) (ws : list string) :
  Py.join_slash (String c w :: ws) = String c (Py.join_slash (w :: ws)).
Proof. destruct ws; reflexivity. Qed.

(** Joining the components of [split] with slashes gives the text back. *)
Lemma join_slash_split (s : string) :
  Py.join_slash (Py.split Py.slash s) = s.
Proof.
  induction s as [| c s IH]; [reflexivity |].
  cbn [Py.split].
  destruct (Ascii.eqb_spec c Py.slash) as [-> | Hne].
  - pose proof (split_not_nil s) as Hnil.
    destruct (Py.split Py.slash s) as [| w ws]; [contradiction |].
    cbn [Py.join_slash] in IH |- *. cbn. rewrite IH. reflexivity.
  - pose proof (split_not_nil s) as Hnil.
    destruct (Py.split Py.slash s) as [| w ws]; [contradiction |].
    rewrite join_slash_cons, IH. reflexivity.
Qed.

Lemma split_no_slash (s : string) :
  Forall Py.no_slash (Py.split Py.slash s).
Proof.
  induction s as [| c s IH]; cbn [Py.split].
  - constructor; [| constructor]. unfold Py.no_slash. cbn.
    apply not_elem_of_nil.
  - destruct (Ascii.eqb_spec c Py.slash) as [-> | Hne].
    + constructor; [| exact IH]. unfold Py.no_slash. cbn.
      apply not_elem_of_nil.
    + destruct (Py.split Py.slash s) as [| w ws].
      * constructor; [| constructor]. unfold Py.no_slash. cbn.
        intros Hin. apply elem_of_cons in Hin as [Heq | Hin];
          [congruence | apply elem_of_nil in Hin; exact Hin].
      * inversion IH as [| ? ? Hw Hws]; subst.
        constructor; [| exact Hws]. unfold Py.no_slash in *. cbn.
        intros Hin. apply elem_of_cons in Hin as [Heq | Hin];
          [congruence | contradiction].
Qed.

Lemma startswith_no_slash (c : string) :
  Py.no_slash c -> Py.startswith "/" c = false.
Proof.
  unfold Py.no_slash, Py.startswith. destruct c as [| x c]; [reflexivity |].
  cbn -[ascii_dec]. intros Hno. destruct (ascii_dec "/" x) as [<- | _]; [| reflexivity].
  exfalso. apply Hno. left.
Qed.

Lemma endswith_no_slash (c : string) :
  Py.no_slash c -> Py.endswith_char Py.slash c = false.
Proof.
  unfold Py.no_slash. induction c as [| x c IH]; [reflexivity |].
  cbn [list_ascii_of_string]. intros Hno.
  assert (x <> Py.slash) as Hx by (intros ->; apply Hno; left).
  assert (Py.slash ∉ list_ascii_of_string c) as Hc
    by (intros Hin; apply Hno; right; exact Hin).
  cbn [Py.endswith_char]. destruct c as [| y c].
  - destruct (Ascii.eqb_spec x Py.slash); [contradiction | reflexivity].
  - apply IH, Hc.
Qed.

Lemma endswith_append (x : ascii) (p c : string) :
  c <> "" -> Py.endswith_char x (p +:+ c) = Py.endswith_char x c.
Proof.
  intros Hc. induction p as [| y p IH]; [reflexivity |].
  change (String y p +:+ c) with (String y (p +:+ c)).
  cbn [Py.endswith_char].
  destruct (p +:+ c) as [| z r] eqn:Hpc; [| exact IH].
  destruct p; [cbn in Hpc; contradiction | discriminate Hpc].
Qed.

Lemma append_not_empty (p c : string) : c <> "" -> p +:+ c <> "".
Proof. destruct p; [intros H; exact H | discriminate]. Qed.

(** Joining components that are not empty onto a path that neither is
    empty nor ends with a slash only inserts slashes. *)
Lemma path_join_components (cs : list string) :
  forall p,
    p <> "" -> Py.endswith_char Py.slash p = false ->
    Forall Py.no_slash cs -> Forall (fun c => c <> "") cs ->
    Py.path_join p cs =
    match cs with
    | [] => p
    | _ => p +:+ "/" +:+ Py.join_slash cs
    end.
Proof.
  induction cs as [| c cs IH]; intros p Hp Hend Hno Hne; [reflexivity |].
  inversion Hno as [| ? ? Hc Hcs]; subst.
  inversion Hne as [| ? ? Hc' Hcs']; subst.
  unfold Py.path_join. cbn [fold_left].
  assert (Py.join_step p c = p +:+ "/" +:+ c) as ->.
  { unfold Py.join_step. rewrite (startswith_no_slash _ Hc), Hend.
    destruct (String.eqb_spec p ""); [contradiction | reflexivity]. }
  fold (Py.path_join (p +:+ "/" +:+ c) cs).
  rewrite IH; try assumption.
  - destruct cs as [| c2 cs]; [reflexivity |].
    cbn [Py.join_slash]. rewrite !append_assoc. reflexivity.
  - apply append_not_empty. discriminate.
  - rewrite <- append_assoc, (endswith_append _ _ _ Hc').
    apply endswith_no_slash, Hc.
Qed.

(** When no component of [key] is empty, joining [key] component by
    component is joining [key] itself: [os.path.join(a, *key.split('/'))]
    is [os.path.join(a, key)]. *)
Lemma path_join_split (a key : string) :
  Forall (fun c => c <> "") (Py.split Py.slash key) ->
  Py.path_join a (Py.split Py.slash key) = Py.join_step a key.
Proof.
  intros Hne. pose proof (split_no_slash key) as Hno.
  pose proof (join_slash_split key) as Hjoin.
  destruct (Py.split Py.slash key) as [| c cs] eqn:Hsplit;
    [exfalso; eapply split_not_nil; exact Hsplit |].
  inversion Hno as [| ? ? Hc Hcs]; subst.
  inversion Hne as [| ? ? Hc' Hcs']; subst.
  assert (Py.startswith "/" (Py.join_slash (c :: cs)) = false) as Hstart.
  { destruct c as [| x c]; [contradiction |].
    rewrite join_slash_cons. unfold Py.startswith. cbn -[ascii_dec].
    destruct (ascii_dec "/" x) as [<- | _]; [| reflexivity].
    exfalso. apply Hc. left. }
  unfold Py.path_join. cbn [fold_left].
  fold (Py.path_join (Py.join_step a c) cs).
  unfold Py.join_step at 2. rewrite Hstart.
  unfold Py.join_step. rewrite (startswith_no_slash _ Hc).
  destruct (String.eqb a "" || Py.endswith_char Py.slash a).
  - rewrite path_join_components; try assumption.
    + destruct cs as [| c2 cs]; [reflexivity |].
      cbn [Py.join_slash]. rewrite append_assoc. reflexivity.
    + apply append_not_empty, Hc'.
    + rewrite (endswith_append _ _ _ Hc'). apply endswith_no_slash, Hc.
  - rewrite path_join_components; try assumption.
    + destruct cs as [| c2 cs]; [reflexivity |].
      cbn [Py.join_slash]. rewrite !append_assoc. reflexivity.
    + apply append_not_empty. discriminate.
    + rewrite <- append_assoc, (endswith_append _ _ _ Hc').
      apply endswith_no_slash, Hc.
Qed.

End PathFacts.

(** ** The dataset adapter *)

Section DatasetFacts.

Variable json_loads : string -> result json.
Variable image : Type.
Variable imread : string -> result image.

Lemma list_index_mod {A : Type} (l : list A) (i : Z) (a : A) :
  - Z.of_nat (length l) <= i < Z.of_nat (length l) ->
  l !! Z.to_nat (i mod Z.of_nat (length l)) = Some a ->
  Py.list_index l i = Ok a.
Proof.
  intros Hi Hl. unfold Py.list_index.
  destruct (Z.ltb_spec i 0) as [Hneg | Hpos].
  - rewrite <- (Z_mod_plus_full i 1), Z.mod_small in Hl by lia.
    destruct (Z.ltb_spec (i + Z.of_nat (length l)) 0); [lia |].
    destruct (Z.leb_spec (Z.of_nat (length l)) (i + Z.of_nat (length l)));
      [lia |].
    cbn. replace (1 * Z.of_nat (length l)) with (Z.of_nat (length l)) in Hl
      by lia.
    rewrite Hl. reflexivity.
  - rewrite Z.mod_small in Hl by lia.
    destruct (Z.ltb_spec i 0); [lia |].
    destruct (Z.leb_spec (Z.of_nat (length l)) i); [lia |].
    cbn. rewrite Hl. reflexivity.
Qed.

(** *** The image path *)

Lemma slice_to_prefix (ref : string) :
  Py.slice_to 5 ref = "s3://" <-> exists rest, ref = "s3://" +:+ rest.
Proof.
  split.
  - intros H.
    destruct ref as [| c1 [| c2 [| c3 [| c4 [| c5 rest]]]]];
      try discriminate H.
    cbn in H. injection H as -> -> -> -> ->. exists rest. reflexivity.
  - intros [rest ->]. reflexivity.
Qed.

Lemma find_sep_bucket (bucket key : string) :
  Py.no_slash bucket ->
  Py.find_sep Py.slash (bucket +:+ String Py.slash key)
    = Some (bucket, key).
Proof.
  unfold Py.no_slash.
  induction bucket as [| c bucket IH]; intros Hno; [reflexivity |].
  change (String c bucket +:+ String Py.slash key)
    with (String c (bucket +:+ String Py.slash key)).
  cbn [Py.find_sep]. cbn in Hno.
  destruct (Ascii.eqb_spec c Py.slash) as [-> | Hne].
  - exfalso. apply Hno. left.
  - rewrite IH; [reflexivity |].
    intros Hin. apply Hno. right. exact Hin.
Qed.

Lemma source_ref_s3 (bucket key : string) :
  Py.no_slash bucket ->
  source_ref_of ("s3://" +:+ bucket +:+ "/" +:+ key) = key.
Proof.
  intros Hno. unfold source_ref_of.
  change ("s3://" +:+ bucket +:+ "/" +:+ key)
    with (String "s" (String "3" (String ":" (String "/" (String "/"
            (bucket +:+ String Py.slash key)))))).
  cbn [Py.slice_to Py.slice_from].
  change (String.eqb "s3://" "s3://") with true. cbn iota.
  unfold Py.partition. rewrite (find_sep_bucket _ _ Hno). reflexivity.
Qed.

Lemma source_ref_verbatim (ref : string) :
  (~ exists rest, ref = "s3://" +:+ rest) -> source_ref_of ref = ref.
Proof.
  intros Hno. unfold source_ref_of.
  destruct (String.eqb_spec (Py.slice_to 5 ref) "s3://") as [He | _];
    [| reflexivity].
  exfalso. apply Hno, slice_to_prefix, He.
Qed.

(** *** The label rows *)

Lemma label_row_box (b : json) (bx : Z * Z * Z * Z) :
  box_of b = Some bx -> label_row b = Ok (corner_row bx).
Proof.
  unfold box_of, label_row. destruct b as [| | | | | o]; try discriminate.
  cbn [subscript].
  destruct (o !! "left") as [[| | l | | |] |]; try discriminate.
  destruct (o !! "top") as [[| | t | | |] |]; try discriminate.
  destruct (o !! "width") as [[| | w | | |] |]; try discriminate.
  destruct (o !! "height") as [[| | h | | |] |]; try discriminate.
  intros [= <-]. reflexivity.
Qed.

Lemma label_rows_boxes (anns : list json) :
  forall boxes label,
    mapM box_of anns = Some boxes ->
    label_rows label anns = Ok (label ++ (corner_row <$> boxes)).
Proof.
  induction anns as [| b rest IH]; intros boxes label H; cbn in H |- *.
  - injection H as <-. rewrite app_nil_r. reflexivity.
  - destruct (box_of b) as [bx |] eqn:Hb; [| discriminate H]. cbn in H.
    destruct (mapM box_of rest) as [bxs |]; [| discriminate H].
    cbn in H. injection H as <-.
    rewrite (label_row_box _ _ Hb). cbn [rbind].
    rewrite (IH bxs _ eq_refl), <- app_assoc. reflexivity.
Qed.

(** C2. For a valid index, [__getitem__] returns the image read from
    [image_path] joined with the entry's source-ref, the
    ["s3://<bucket>/"] prefix removed when the source-ref starts with
    ["s3://"] and the source-ref taken as it is otherwise, together with
    one row [[left, top, left+width, top+height, 0]] per annotation.
    The join is made component by component, which for a source-ref
    without empty components is [os.path.join] of the two. *)
Theorem getitem_image_and_label (ds : GroundTruthDataset) (idx : Z)
    (o labels : gmap string json) (ref : string) (anns : list json)
    (boxes : list (Z * Z * Z * Z)) :
  - len ds <= idx < len ds ->
  image_info ds !! Z.to_nat (idx mod len ds) = Some (JObj o) ->
  o !! "source-ref" = Some (JStr ref) ->
  o !! field_name ds = Some (JObj labels) ->
  labels !! "annotations" = Some (JArr anns) ->
  mapM box_of anns = Some boxes ->
  exists source_ref,
    getitem image imread ds idx =
      (let! img := imread (Py.path_join (image_path ds)
                             (Py.split Py.slash source_ref)) in
       Ok (img, corner_row <$> boxes)) /\
    (forall bucket key,
        ref = "s3://" +:+ bucket +:+ "/" +:+ key ->
        Py.no_slash bucket -> source_ref = key) /\
    ((~ exists rest, ref = "s3://" +:+ rest) -> source_ref = ref) /\
    (Forall (fun c => c <> "") (Py.split Py.slash source_ref) ->
     Py.path_join (image_path ds) (Py.split Py.slash source_ref) =
     Py.join_step (image_path ds) source_ref).
Proof.
  intros Hidx Hinfo Href Hlabels Hanns Hboxes.
  exists (source_ref_of ref). split; [| split; [| split]].
  - unfold getitem. unfold len in Hidx, Hinfo.
    rewrite (list_index_mod _ _ _ Hidx Hinfo). cbn [rbind subscript].
    rewrite Href. cbn [rbind].
    destruct (imread _) as [img | e]; [| reflexivity]. cbn [rbind].
    rewrite Hlabels. cbn [rbind subscript]. rewrite Hanns.
    cbn [rbind py_iter].
    rewrite (label_rows_boxes _ _ [] Hboxes). reflexivity.
  - intros bucket key -> Hno. apply source_ref_s3, Hno.
  - apply source_ref_verbatim.
  - apply path_join_split.
Qed.

(** *** The constructor *)

Lemma init_line_keeps (fname : string) (acc : list json) (line : string)
    (info : json) (n : Z) :
  json_loads (Py.drop_last line) = Ok info ->
  annotation_count fname info = Ok n ->
  init_line json_loads fname acc line =
  Ok (acc ++ List.filter (has_annotations fname) [info]).
Proof.
  intros Hload Hcount. unfold init_line. rewrite Hload. cbn [rbind].
  unfold has_annotations. cbn [List.filter]. rewrite Hcount.
  unfold annotation_count in Hcount.
  destruct (subscript info fname) as [labels | e]; [| discriminate].
  cbn [rbind] in Hcount |- *.
  destruct (subscript labels "annotations") as [anns | e];
    [| discriminate].
  cbn [rbind] in Hcount |- *. rewrite Hcount. cbn [rbind].
  destruct (n =? 0); cbn; rewrite ?app_nil_r; reflexivity.
Qed.

Lemma init_lines_keep (fname : string) (lines : list string) :
  forall infos acc,
    Forall2 (fun line info => json_loads (Py.drop_last line) = Ok info)
            lines infos ->
    Forall (fun info => exists n, annotation_count fname info = Ok n)
           infos ->
    init_lines json_loads fname acc lines =
    Ok (acc ++ List.filter (has_annotations fname) infos).
Proof.
  induction lines as [| line rest IH]; intros infos acc Hparse Hcount.
  - inversion Hparse; subst. cbn. rewrite app_nil_r. reflexivity.
  - inversion Hparse as [| ? info ? infos' Hline Hrest]; subst.
    inversion Hcount as [| ? ? [n Hn] Hcount']; subst.
    cbn [init_lines].
    rewrite (init_line_keeps _ _ _ _ _ Hline Hn). cbn [rbind].
    rewrite (IH _ _ Hrest Hcount'), <- app_assoc.
    change (info :: infos') with ([info] ++ infos').
    rewrite List.filter_app. reflexivity.
Qed.

Lemma has_annotations_count (fname : string) (info : json) :
  has_annotations fname info = true ->
  exists n, annotation_count fname info = Ok n /\ 0 < n.
Proof.
  unfold has_annotations.
  destruct (annotation_count fname info) as [n | e] eqn:Hn;
    [| discriminate].
  intros H. exists n. split; [reflexivity |].
  destruct (Z.eqb_spec n 0); [discriminate H |].
  unfold annotation_count in Hn.
  destruct (subscript info fname) as [labels | ?]; [| discriminate].
  cbn [rbind] in Hn.
  destruct (subscript labels "annotations") as [anns | ?];
    [| discriminate].
  cbn [rbind] in Hn.
  destruct anns; try discriminate; injection Hn as <-; lia.
Qed.

(** C3, amended. The constructor keeps, in order, the parsed manifest
    lines whose annotation list under [field_name] is not empty and
    drops the others; [__len__] is the number of lines kept, and every
    stored entry has at least one annotation. *)
Theorem init_keeps_annotated (fs : gmap string (list string))
    (dpath channel ipath fname : string) (lines : list string)
    (infos : list json) :
  fs !! manifest_path dpath channel = Some lines ->
  Forall2 (fun line info => json_loads (Py.drop_last line) = Ok info)
          lines infos ->
  Forall (fun info => exists n, annotation_count fname info = Ok n)
         infos ->
  exists ds,
    init json_loads fs dpath channel ipath fname = Ok ds /\
    image_info ds = List.filter (has_annotations fname) infos /\
    len ds =
      Z.of_nat (length (List.filter (has_annotations fname) infos)) /\
    Forall (fun info =>
              exists n, annotation_count fname info = Ok n /\ 0 < n)
           (image_info ds).
Proof.
  intros Hfile Hparse Hcount. unfold init, open_readlines.
  rewrite Hfile. cbn [rbind].
  rewrite (init_lines_keep _ _ _ [] Hparse Hcount). cbn [rbind app].
  eexists. split; [reflexivity |]. cbn [image_info].
  split; [reflexivity |]. split; [reflexivity |].
  apply List.Forall_forall. intros info Hin.
  apply List.filter_In in Hin as [_ Hhas].
  apply has_annotations_count, Hhas.
Qed.

End DatasetFacts.

(** C3, as stated, fails: of the two lines of the manifest below the
    second has no annotation, and the dataset keeps one entry. *)
Lemma init_drops_unannotated :
  exists ds lines,
    init Demo.loads Demo.files "data" "train" "images" "labels" = Ok ds /\
    Demo.files !! manifest_path "data" "train" = Some lines /\
    Forall2 (fun line info => Demo.loads (Py.drop_last line) = Ok info)
            lines [Demo.cat; Demo.empty_street] /\
    image_info ds = [Demo.cat] /\
    len ds <> Z.of_nat (length lines).
Proof.
  eexists _, _. split; [vm_compute; reflexivity |].
  split; [vm_compute; reflexivity |].
  split; [repeat constructor |]. split; [reflexivity |].
  cbn. discriminate.
Qed.

(** The entry of the cat picture: a [s3://] source-ref and two boxes. *)
Lemma getitem_image_and_label_witness :
  getitem string Demo.imread Demo.dataset 0 =
    Ok ("images/imgs/cat.jpg",
        [[JInt 10; JInt 20; JInt 40; JInt 60; JInt 0];
         [JInt 1; JInt 2; JInt 4; JInt 6; JInt 0]]).
Proof.
  destruct (getitem_image_and_label string Demo.imread Demo.dataset 0
              (Demo.fields_of Demo.cat_ref Demo.cat_boxes)
              (Demo.labels_of Demo.cat_boxes) Demo.cat_ref Demo.cat_boxes
              [(10, 20, 30, 40); (1, 2, 3, 4)])
    as (source_ref & Hget & Hs3 & _ & _).
  - unfold len. cbn. lia.
  - reflexivity.
  - vm_compute. reflexivity.
  - vm_compute. reflexivity.
  - vm_compute. reflexivity.
  - vm_compute. reflexivity.
  - rewrite Hget, (Hs3 "bucket" "imgs/cat.jpg" eq_refl).
    + reflexivity.
    + intros Hin. vm_compute in Hin.
      repeat (apply elem_of_cons in Hin as [Hin | Hin];
              [discriminate Hin |]).
      apply elem_of_nil in Hin. exact Hin.
Defined.

(** The two-line manifest parses, and each entry has an annotation list. *)
Lemma init_keeps_annotated_witness :
  exists ds,
    init Demo.loads Demo.files "data" "train" "images" "labels" = Ok ds /\
    image_info ds = [Demo.cat] /\ len ds = 1.
Proof.
  destruct (init_keeps_annotated Demo.loads Demo.files "data" "train"
              "images" "labels"
              ["cat" +:+ Fmt.newline; "street" +:+ Fmt.newline]
              [Demo.cat; Demo.empty_street])
    as (ds & Hinit & Hinfo & Hlen & _).
  - vm_compute. reflexivity.
  - repeat constructor.
  - repeat constructor; eexists; vm_compute; reflexivity.
  - exists ds. split; [exact Hinit |]. split; [exact Hinfo | exact Hlen].
Defined.

(** ** Checkpoints *)

Section CheckpointFacts.

Context {F : Framework}.

Lemma Qmax_spec (b c : Q) :
  Qmax b c = if Qlt_le_dec b c then c else b.
Proof.
  unfold Qmax, GenericMinMax.gmax.
  destruct (Qlt_le_dec b c) as [Hlt | Hle].
  - assert (E : Qcompare b c = Lt) by (apply Qlt_alt; exact Hlt).
    rewrite E. reflexivity.
  - destruct (Qcompare_spec b c) as [_ | Hlt | _];
      [reflexivity | | reflexivity].
    exfalso. eapply Qle_not_lt; eassumption.
Qed.

(** One call: the first element becomes the larger of itself and the
    map passed, and a best checkpoint is written exactly when it grows. *)
Lemma save_params_step net (best_map : list Q) b cur epoch si prefix :
  best_map !! 0%nat = Some b ->
  exists best_map' files,
    save_params net best_map cur epoch si prefix = Ok (best_map', files) /\
    best_map' !! 0%nat = Some (Qmax b cur) /\
    (wrote_best files = true <-> (b < cur)%Q).
Proof.
  intros Hb. unfold save_params.
  rewrite (list_index_head _ _ Hb). cbn [rbind].
  rewrite Qmax_spec.
  pose proof (lookup_lt_Some _ _ _ Hb) as Hlen.
  destruct (Qlt_le_dec b cur) as [Hlt | Hle];
    destruct (negb (si =? 0) && (epoch mod si =? 0));
    eexists _, _; (split; [reflexivity |]); split;
    try (apply list_lookup_insert_eq; exact Hlen); try exact Hb;
    cbn; split; intros H; try reflexivity; try exact Hlt;
    try discriminate H; exfalso; eapply Qle_not_lt; eassumption.
Qed.

(** The history of a sequence of calls, for an initial best that is not
    negative. *)
Lemma save_params_calls_history (calls : list save_call) :
  forall (best_map : list Q) (b0 : Q),
    best_map !! 0%nat = Some b0 ->
    exists history,
      save_params_calls best_map calls = Ok history /\
      length history = length calls /\
      forall (i : nat) c bm files,
        calls !! i = Some c -> history !! i = Some (bm, files) ->
        let before := fold_left Qmax (sc_map <$> take i calls) b0 in
        let after := fold_left Qmax (sc_map <$> take (S i) calls) b0 in
        bm !! 0%nat = Some after /\ (before <= after)%Q /\
        (wrote_best files = true <-> (before < after)%Q) /\
        ((0 <= b0)%Q -> (sc_map c == 0)%Q -> wrote_best files = false).
Proof.
  induction calls as [| c0 rest IH]; intros best_map b0 Hb.
  - exists []. split; [reflexivity |]. split; [reflexivity |].
    intros i c bm files Hc. rewrite lookup_nil in Hc. discriminate Hc.
  - destruct (save_params_step (sc_net c0) best_map b0 (sc_map c0)
                (sc_epoch c0) (sc_interval c0) (sc_prefix c0) Hb)
      as (bm1 & f1 & Hcall & Hbm1 & Hbest).
    destruct (IH bm1 (Qmax b0 (sc_map c0)) Hbm1)
      as (more & Hmore & Hlen & Hall).
    exists ((bm1, f1) :: more). cbn [save_params_calls].
    rewrite Hcall. cbn [rbind]. rewrite Hmore. cbn [rbind].
    split; [reflexivity |]. split; [cbn; congruence |].
    intros [| i] c bm files Hc Hh.
    + cbn in Hc, Hh. injection Hc as <-. injection Hh as <- <-.
      cbn. split; [exact Hbm1 |]. split; [apply Q.le_max_l |].
      split.
      * rewrite Hbest. rewrite Qmax_spec.
        destruct (Qlt_le_dec b0 (sc_map c0)) as [Hlt | Hle];
          split; intros H; try assumption.
        -- exfalso. eapply Qle_not_lt; eassumption.
        -- exfalso. eapply Qlt_irrefl. exact H.
      * intros Hpos Hzero.
        destruct (wrote_best f1) eqn:Hw; [| reflexivity].
        exfalso. apply (Qle_not_lt 0 b0 Hpos).
        rewrite <- Hzero. apply Hbest. reflexivity.
    + cbn in Hc, Hh.
      destruct (Hall i c bm files Hc Hh) as (H1 & H2 & H3 & H4).
      cbn. repeat split; try assumption; try apply H3.
      intros Hpos. apply H4.
      eapply Qle_trans; [exact Hpos | apply Q.le_max_l].
Qed.

(** C4. A call of [save_params] writes the periodic checkpoint
    [<prefix>_<epoch>_<map>.params] exactly when [save_interval] is not
    zero and divides [epoch], writes the best-model checkpoint with its
    line appended to [<prefix>_best_map.log] exactly when [current_map]
    exceeds [best_map[0]], and writes nothing else. *)
Theorem save_params_writes net (best_map : list Q) best current_map
    epoch save_interval prefix :
  best_map !! 0%nat = Some best ->
  exists best_map' best_part periodic_part,
    save_params net best_map current_map epoch save_interval prefix
      = Ok (best_map', best_part ++ periodic_part) /\
    ((best < current_map)%Q ->
       best_part = best_files net prefix epoch current_map) /\
    (~ (best < current_map)%Q -> best_part = []) /\
    (save_interval <> 0 /\ epoch mod save_interval = 0 ->
       periodic_part = periodic_files net prefix epoch current_map) /\
    (~ (save_interval <> 0 /\ epoch mod save_interval = 0) ->
       periodic_part = []).
Proof.
  intros Hb. unfold save_params.
  rewrite (list_index_head _ _ Hb). cbn [rbind].
  exists (if Qlt_le_dec best current_map
          then <[0%nat := current_map]> best_map else best_map),
         (if Qlt_le_dec best current_map
          then best_files net prefix epoch current_map else []),
         (if negb (save_interval =? 0) && (epoch mod save_interval =? 0)
          then periodic_files net prefix epoch current_map else []).
  split.
  - destruct (Qlt_le_dec best current_map);
      destruct (negb (save_interval =? 0) &&
                (epoch mod save_interval =? 0));
      cbn; rewrite ?app_nil_r; reflexivity.
  - split; [| split]; [| | split].
    + intros Hlt. destruct (Qlt_le_dec best current_map) as [_ | Hle];
        [reflexivity |]. exfalso. eapply Qle_not_lt; eassumption.
    + intros Hn. destruct (Qlt_le_dec best current_map) as [Hlt | _];
        [contradiction | reflexivity].
    + intros [Hsi Hmod].
      destruct (Z.eqb_spec save_interval 0); [contradiction |].
      rewrite Hmod. reflexivity.
    + intros Hn.
      destruct (Z.eqb_spec save_interval 0); [reflexivity |].
      destruct (Z.eqb_spec (epoch mod save_interval) 0);
        [exfalso; apply Hn; split; assumption | reflexivity].
Qed.

(** C9. Over a sequence of [save_params] calls on one shared [best_map]
    list, [best_map[0]] never decreases and after each call is the
    maximum of its initial value and the maps passed so far; a best
    checkpoint is written exactly when that maximum grows, and a call
    passing a map of 0 against an initial best of 0 writes none. *)
Theorem best_map_running_max (best_map : list Q) (b0 : Q)
    (calls : list save_call) :
  best_map !! 0%nat = Some b0 ->
  exists history,
    save_params_calls best_map calls = Ok history /\
    length history = length calls /\
    forall (i : nat) c bm files,
      calls !! i = Some c -> history !! i = Some (bm, files) ->
      let before := fold_left Qmax (sc_map <$> take i calls) b0 in
      let after := fold_left Qmax (sc_map <$> take (S i) calls) b0 in
      bm !! 0%nat = Some after /\ (before <= after)%Q /\
      (wrote_best files = true <-> (before < after)%Q) /\
      ((b0 == 0)%Q -> (sc_map c == 0)%Q -> wrote_best files = false).
Proof.
  intros Hb.
  destruct (save_params_calls_history calls best_map b0 Hb)
    as (history & Hrun & Hlen & Hall).
  exists history. split; [exact Hrun |]. split; [exact Hlen |].
  intros i c bm files Hc Hh.
  destruct (Hall i c bm files Hc Hh) as (H1 & H2 & H3 & H4).
  repeat split; try assumption; try apply H3.
  intros Hzero. apply H4. rewrite Hzero. apply Qle_refl.
Qed.

End CheckpointFacts.

(** ** The validation schedule *)

Ltac bind_ok H :=
  match type of H with
  | rbind ?c _ = Ok _ =>
      let E := fresh "E" in
      destruct c eqn:E; cbn [rbind] in H; [| discriminate H]
  end.

Section ScheduleFacts.

Context {F : Framework}.



Lemma validate_out ctx w r w' :
  validate ctx w = Ok (r, w') -> w_out w' = w_out w.
Proof.
  unfold validate. intros H.
  destruct (val_iter (w_val w)) as [batches vl].
  destruct (for_each _ _ _) as [[net metric] | e]; [| discriminate H].
  injection H as _ <-. reflexivity.
Qed.









End ScheduleFacts.

(** ** The losses of a batch *)

Section LossFacts.

Context {F : Framework}.

Lemma targets_at_lookup (fts : list (list NDArray)) (j : nat) :
  forall ts,
    mapM (fun ft : list NDArray => ft !! j) fts = Some ts ->
    targets_at fts (Z.of_nat j) = Ok ts.
Proof.
  induction fts as [| ft rest IH]; intros ts H; cbn in H |- *.
  - injection H as <-. reflexivity.
  - destruct (ft !! j) as [t |] eqn:Ht; [| discriminate H].
    cbn in H.
    destruct (mapM _ rest) as [ts' |]; [| discriminate H].
    cbn in H. injection H as <-.
    rewrite (list_index_nat _ _ _ Ht). cbn [rbind].
    rewrite (IH ts' eq_refl). reflexivity.
Qed.

(** The loop over the device slices, from slice [j] on. *)
Lemma train_slices_spec (data gt_boxes : list NDArray)
    (fixed_targets : list (list NDArray)) (rest : list NDArray) :
  forall (j : nat) slices net l,
    drop j data = rest ->
    mapM (slice_at data gt_boxes fixed_targets) (seq j (length rest))
      = Some slices ->
    for_enumerate (train_slice gt_boxes fixed_targets) (Z.of_nat j) rest
                  (net, l)
    = Ok ((slice_outputs net slices).2,
          {| sum_losses :=
               sum_losses l ++ (loss_sum <$> (slice_outputs net slices).1);
             obj_losses :=
               obj_losses l ++ (obj_of <$> (slice_outputs net slices).1);
             center_losses :=
               center_losses l ++
               (center_of <$> (slice_outputs net slices).1);
             scale_losses :=
               scale_losses l ++
               (scale_of <$> (slice_outputs net slices).1);
             cls_losses :=
               cls_losses l ++
               (cls_of <$> (slice_outputs net slices).1) |}).
Proof.
  induction rest as [| x rest IH]; intros j slices net l Hdrop Hm.
  - cbn in Hm. injection Hm as <-. cbn. rewrite !app_nil_r.
    destruct l; reflexivity.
  - cbn [length seq mapM] in Hm.
    destruct (slice_at data gt_boxes fixed_targets j)
      as [[[x' gt] ts] |] eqn:Hs; [| discriminate Hm].
    cbn in Hm.
    destruct (mapM _ (seq (S j) (length rest))) as [more |] eqn:Hmore;
      [| discriminate Hm].
    cbn in Hm. injection Hm as <-.
    unfold slice_at in Hs.
    destruct (data !! j) as [xj |] eqn:Hx; [| discriminate Hs].
    cbn in Hs.
    destruct (gt_boxes !! j) as [gtj |] eqn:Hg; [| discriminate Hs].
    cbn in Hs.
    destruct (mapM _ fixed_targets) as [tsj |] eqn:Ht; [| discriminate Hs].
    cbn in Hs. injection Hs as <- <- <-.
    assert (xj = x) as ->.
    { assert (drop j data !! 0%nat = Some xj) as Hd
        by (rewrite lookup_drop, Nat.add_0_r; exact Hx).
      rewrite Hdrop in Hd. cbn in Hd. congruence. }
    cbn [for_enumerate]. unfold train_slice at 1.
    rewrite (list_index_nat _ _ _ Hg). cbn [rbind].
    rewrite (targets_at_lookup _ _ _ Ht). cbn [rbind].
    cbn [slice_outputs].
    destruct (net_losses net x gtj tsj) as [[[[o c] s] k] net1].
    cbn [rbind].
    replace (Z.of_nat j + 1) with (Z.of_nat (S j)) by lia.
    assert (drop (S j) data = rest) as Hdrop'.
    { rewrite <- (Nat.add_1_r j), <- drop_drop, Hdrop. reflexivity. }
    rewrite (IH (S j) more net1 _ Hdrop' Hmore).
    destruct (slice_outputs net1 more) as [outs net2].
    cbn. rewrite <- !app_assoc. reflexivity.
Qed.

(** C6. For a training batch, the losses handed to [autograd.backward]
    are, slice by slice, the sum of the four terms the network returns,
    [obj_loss + center_loss + scale_loss + cls_loss], and each of the
    four loss metrics (ObjLoss, BoxCenterLoss, BoxScaleLoss, ClassLoss)
    is updated with its own term of every slice. *)
Theorem train_batch_losses ctx args epoch w i batch
    b0 b1 b2 b3 b4 b5 b6 slices :
  batch = [b0; b1; b2; b3; b4; b5; b6] ->
  mapM (slice_at (split_and_load b0 ctx) (split_and_load b6 ctx)
          ((fun b => split_and_load b ctx) <$> [b1; b2; b3; b4; b5]))
       (seq 0 (length (split_and_load b0 ctx))) = Some slices ->
  exists w',
    train_batch ctx args epoch w i batch = Ok w' /\
    (w_trainer w', w_net w') =
      trainer_step (w_trainer w)
        (autograd_backward (slice_outputs (w_net w) slices).2
           (loss_sum <$> (slice_outputs (w_net w) slices).1))
        (nd_shape b0 0) /\
    (forall o, loss_sum o =
               nd_add (nd_add (nd_add (obj_of o) (center_of o))
                              (scale_of o)) (cls_of o)) /\
    w_obj w' = loss_update (w_obj w)
                 (obj_of <$> (slice_outputs (w_net w) slices).1) /\
    w_center w' = loss_update (w_center w)
                    (center_of <$> (slice_outputs (w_net w) slices).1) /\
    w_scale w' = loss_update (w_scale w)
                   (scale_of <$> (slice_outputs (w_net w) slices).1) /\
    w_cls w' = loss_update (w_cls w)
                 (cls_of <$> (slice_outputs (w_net w) slices).1) /\
    (forall net trainer train_data val_data eval_metric,
        let w0 := initial_world net trainer train_data val_data
                                eval_metric args in
        w_obj w0 = loss_new "ObjLoss" /\
        w_center w0 = loss_new "BoxCenterLoss" /\
        w_scale w0 = loss_new "BoxScaleLoss" /\
        w_cls w0 = loss_new "ClassLoss").
Proof.
  intros -> Hslices. unfold train_batch.
  change (Py.list_index [b0; b1; b2; b3; b4; b5; b6] 0) with (Ok b0).
  change (Py.list_index [b0; b1; b2; b3; b4; b5; b6] 6) with (Ok b6).
  change (load_targets ctx [b0; b1; b2; b3; b4; b5; b6] (Fmt.range 1 6))
    with (Ok ((fun b => split_and_load b ctx) <$> [b1; b2; b3; b4; b5])).
  cbn [rbind].
  rewrite (train_slices_spec _ _ _ (split_and_load b0 ctx) 0 slices
             _ _ eq_refl Hslices).
  cbn [rbind sum_losses obj_losses center_losses scale_losses cls_losses
       no_losses app emit w_net w_trainer w_obj w_center w_scale w_cls].
  destruct (slice_outputs (w_net w) slices) as [outs net1]. cbn [fst snd].
  destruct (trainer_step _ _ _) as [trainer net2].
  assert (forall o : NDArray * NDArray * NDArray * NDArray,
             loss_sum o =
             nd_add (nd_add (nd_add (obj_of o) (center_of o))
                            (scale_of o)) (cls_of o)) as Hsum
    by (intros [[[o c] s] k]; reflexivity).
  destruct (negb _ && _); eexists; (split; [reflexivity |]);
    cbn; repeat split; try apply Hsum.
Qed.

End LossFacts.

(** A map of 0.5 at epoch 10 against a best of 0: both checkpoints. *)
Lemma save_params_writes_witness :
  exists best_map',
    save_params (F := Demo.scalars) [] [0%Q] (1 # 2) 10 10 "yolov3" =
    Ok (best_map',
        best_files (F := Demo.scalars) [] "yolov3" 10 (1 # 2) ++
        periodic_files (F := Demo.scalars) [] "yolov3" 10 (1 # 2)).
Proof.
  destruct (save_params_writes (F := Demo.scalars) [] [0%Q] 0%Q (1 # 2)
              10 10 "yolov3" eq_refl)
    as (bm & bp & pp & Hcall & Hbest & _ & Hper & _).
  exists bm. rewrite Hcall, Hbest, Hper; [reflexivity | | reflexivity].
  split; [discriminate | reflexivity].
Defined.

(** Three calls passing 0, 0.5 and 0.25 against an initial best of 0. *)
Lemma best_map_running_max_witness :
  exists history,
    save_params_calls (F := Demo.scalars) [0%Q] Demo.calls = Ok history /\
    (fun step => step.1 !! 0%nat) <$> history =
      [Some 0%Q; Some (1 # 2); Some (1 # 2)] /\
    (fun step => wrote_best step.2) <$> history = [false; true; false].
Proof.
  destruct (best_map_running_max (F := Demo.scalars) [0%Q] 0%Q Demo.calls
              eq_refl)
    as (history & Hrun & _ & _).
  exists history. split; [exact Hrun |].
  vm_compute in Hrun. injection Hrun as <-. split; reflexivity.
Defined.




(** A batch of seven arrays split over two devices. *)
Lemma train_batch_losses_witness :
  exists w',
    train_batch (F := Demo.scalars) [tt; tt] Demo.args 0 Demo.start 0
                Demo.batch = Ok w' /\
    w_net w' = [29; 29] /\
    w_obj w' = ("ObjLoss", [1; 1]) /\
    w_center w' = ("BoxCenterLoss", [7; 7]) /\
    w_scale w' = ("BoxScaleLoss", [20; 20]) /\
    w_cls w' = ("ClassLoss", [1; 1]).
Proof.
  destruct (train_batch_losses (F := Demo.scalars) [tt; tt] Demo.args 0
              Demo.start 0 Demo.batch 1 2 3 4 5 6 7
              [(1, 7, [2; 3; 4; 5; 6]); (1, 7, [2; 3; 4; 5; 6])]
              eq_refl eq_refl)
    as (w' & Hrun & Hnet & _ & Hobj & Hcenter & Hscale & Hcls & _).
  exists w'. split; [exact Hrun |].
  injection Hnet as _ Hnet.
  rewrite Hnet, Hobj, Hcenter, Hscale, Hcls. repeat split.
Defined.

(** ** Network construction and data loaders *)

(** C7. Every run builds a pretrained detector.  With at most one sync-BN
    device [get_model] is called with [pretrained=True] whatever
    [args.pretrained] is; with more than one, the full pretrained weights
    are asked for exactly when [args.pretrained] is true and
    [pretrained_base=True] otherwise.  [--pretrained] is a store-false
    flag. *)
Theorem main_network_pretrained (args : Args) :
  (sync_bn_devices args <= 1 ->
   (main_network args).1.1 =
     {| gm_name := network args; gm_pretrained := Some true;
        gm_pretrained_base := None; gm_num_sync_bn_devices := None |} /\
   (main_network args).1.2 = AsyncIsNet /\
   forall b, main_network (with_pretrained b args) = main_network args) /\
  (1 < sync_bn_devices args ->
   (pretrained args = true ->
    (main_network args).1.1 =
      {| gm_name := network args; gm_pretrained := Some true;
         gm_pretrained_base := None;
         gm_num_sync_bn_devices := Some (sync_bn_devices args) |}) /\
   (pretrained args = false ->
    (main_network args).1.1 =
      {| gm_name := network args; gm_pretrained := None;
         gm_pretrained_base := Some true;
         gm_num_sync_bn_devices := Some (sync_bn_devices args) |})) /\
  (gm_pretrained (main_network args).1.1 = Some true \/
   gm_pretrained_base (main_network args).1.1 = Some true) /\
  (forall argv, pretrained_flag argv = false <-> "--pretrained" ∈ argv).
Proof.
  split; [| split; [| split]].
  - intros Hle. unfold main_network.
    change (sync_bn_devices (with_pretrained ?b args))
      with (sync_bn_devices args).
    destruct (Z.ltb_spec 1 (sync_bn_devices args)); [lia |].
    repeat split.
  - intros Hlt. unfold main_network.
    destruct (Z.ltb_spec 1 (sync_bn_devices args)); [| lia].
    split; intros ->; reflexivity.
  - unfold main_network.
    destruct (1 <? sync_bn_devices args); [| left; reflexivity].
    destruct (pretrained args); [left | right]; reflexivity.
  - intros argv. unfold pretrained_flag, store_false.
    destruct (bool_decide_reflect ("--pretrained" ∈ argv)); cbn;
      split; intros H; try reflexivity; try assumption;
      try discriminate H; contradiction.
Qed.

Section LoaderFacts.

Variables (N D : Type).

(** C8. Without [--no-random-shape] the training loader is a
    [RandomTransformDataLoader] over the ten training transforms of
    square shape [x * 32], [x] from 10 to 19 (320 to 608), re-sampled
    every 10 batches, shuffled, the last incomplete batch discarded;
    with the flag it is an ordinary loader with the one transform of
    shape [data_shape].  The validation loader uses the validation
    transform of shape [data_shape] in both cases. *)
Theorem get_dataloader_shapes (net : N) (train_dataset val_dataset : D)
    (dshape bsize nworkers : Z) (args : Args) :
  let loaders :=
    (get_dataloader net train_dataset val_dataset dshape bsize nworkers
                    args).1 in
  loaders.2 =
    DataLoader val_dataset (YOLO3DefaultValTransform dshape dshape)
               bsize true [Stack; Pad None (-1)] "discard" nworkers /\
  (no_random_shape args = false ->
   exists fns,
     loaders.1 =
       RandomTransformDataLoader fns train_dataset bsize 10 "discard"
                                 true batchify7 nworkers /\
     length fns = 10%nat /\
     fns = (fun s => YOLO3DefaultTrainTransform s s net (mixup args)) <$>
           [320; 352; 384; 416; 448; 480; 512; 544; 576; 608] /\
     forall t, t ∈ fns <->
               exists x, 10 <= x <= 19 /\
                         t = YOLO3DefaultTrainTransform
                               (x * 32) (x * 32) net (mixup args)) /\
  (no_random_shape args = true ->
   loaders.1 =
     DataLoader train_dataset
       (YOLO3DefaultTrainTransform dshape dshape net (mixup args))
       bsize true batchify7 "discard" nworkers).
Proof.
  unfold get_dataloader. cbn zeta.
  change (Fmt.range 10 20) with [10; 11; 12; 13; 14; 15; 16; 17; 18; 19].
  split; [destruct (no_random_shape args); reflexivity |]. split.
  - intros ->. eexists. split; [reflexivity |]. split; [reflexivity |].
    split; [reflexivity |]. intros t. split.
    + intros Hin. cbn [fmap list_fmap] in Hin.
      repeat (apply elem_of_cons in Hin as [-> | Hin];
              [eexists; split; [| reflexivity]; lia |]).
      apply elem_of_nil in Hin. contradiction.
    + intros (x & Hx & ->).
      assert (x = 10 \/ x = 11 \/ x = 12 \/ x = 13 \/ x = 14 \/ x = 15 \/
              x = 16 \/ x = 17 \/ x = 18 \/ x = 19) as Hcases by lia.
      cbn [fmap list_fmap].
      destruct Hcases
        as [-> | [-> | [-> | [-> | [-> | [-> | [-> | [-> | [-> | ->]]]]]]]]];
        repeat first [apply list_elem_of_here
                     | apply list_elem_of_further].
  - intros ->. reflexivity.
Qed.

End LoaderFacts.

(** ** Names *)

(** C1 fails on the code: for every invocation, whether run as a script
    or imported, module initialisation stops at line 15 with
    [NameError: name 'sys' is not defined], before [parse_args] or the
    training loop is reached. *)
Theorem module_init_raises (as_main : bool) (G0 : globals) :
  G0 !! "sys" = None ->
  run (module_body as_main) G0 = Raise (NameError "sys").
Proof.
  intros Hsys. unfold module_body, run, builtin_imports, pip_upgrade.
  cbn [fmap list_fmap app for_each import_as rbind].
  unfold read_attr at 1. unfold load at 1.
  rewrite !(lookup_insert_ne _ _ "subprocess") by discriminate.
  rewrite lookup_insert_eq. cbn [getattr rbind].
  unfold read_attr at 1. unfold load at 1.
  rewrite !(lookup_insert_ne _ _ "sys") by discriminate.
  rewrite Hsys. reflexivity.
Qed.

(** The initial globals of the module qualify. *)
Lemma module_init_raises_witness :
  initial_globals !! "sys" = None /\
  run (module_body true) initial_globals = Raise (NameError "sys").
Proof.
  split; [reflexivity |].
  apply (module_init_raises true initial_globals). reflexivity.
Defined.






(** * Further properties *)

(** ** The dataset adapter: errors and edges *)

Section DatasetEdges.

Variable json_loads : string -> result json.
Variable image : Type.
Variable imread : string -> result image.




Lemma drop_last_snoc (text : string) (c : ascii) :
  Py.drop_last (text +:+ String c "") = text.
Proof.
  induction text as [| x text IH]; [reflexivity |].
  change (String x text +:+ String c "")
    with (String x (text +:+ String c "")).
  cbn [Py.drop_last]. rewrite IH.
  destruct text; reflexivity.
Qed.

Lemma init_lines_last_char (fname : string) (texts : list string) :
  forall (cs cs' : list ascii) acc,
    length cs = length texts -> length cs' = length texts ->
    init_lines json_loads fname acc
      (zip_with (fun t c => t +:+ String c "") texts cs) =
    init_lines json_loads fname acc
      (zip_with (fun t c => t +:+ String c "") texts cs').
Proof.
  induction texts as [| t texts IH]; intros cs cs' acc Hcs Hcs';
    [reflexivity |].
  destruct cs as [| c cs]; [discriminate Hcs |].
  destruct cs' as [| c' cs']; [discriminate Hcs' |].
  cbn [zip_with init_lines]. unfold init_line.
  rewrite !drop_last_snoc.
  destruct (json_loads t) as [info | ?]; [| reflexivity]. cbn [rbind].
  destruct (subscript info fname) as [labels | ?]; [| reflexivity].
  cbn [rbind].
  destruct (subscript labels "annotations") as [anns | ?];
    [| reflexivity].
  cbn [rbind]. destruct (py_len anns) as [n | ?]; [| reflexivity].
  cbn [rbind].
  destruct (n =? 0); cbn [rbind]; apply IH; cbn in Hcs, Hcs'; lia.
Qed.

(** X2. The constructor drops the last character of every line whatever
    that character is: two manifests whose lines differ only in their
    last characters give the same result.  A last line without its
    newline is parsed without its last character. *)
Theorem init_ignores_last_char (fs fs' : gmap string (list string))
    (dpath channel ipath fname : string) (texts : list string)
    (cs cs' : list ascii) :
  length cs = length texts -> length cs' = length texts ->
  fs !! manifest_path dpath channel =
    Some (zip_with (fun t c => t +:+ String c "") texts cs) ->
  fs' !! manifest_path dpath channel =
    Some (zip_with (fun t c => t +:+ String c "") texts cs') ->
  init json_loads fs dpath channel ipath fname =
  init json_loads fs' dpath channel ipath fname.
Proof.
  intros Hcs Hcs' Hfs Hfs'. unfold init, open_readlines.
  rewrite Hfs, Hfs'. cbn [rbind].
  rewrite (init_lines_last_char fname texts cs cs' [] Hcs Hcs').
  reflexivity.
Qed.

End DatasetEdges.


(** A last line ["cat}"] is read as ["cat"]. *)
Lemma init_ignores_last_char_witness :
  init Cases.loads Cases.unterminated "data" "train" "images" "labels" =
  init Cases.loads Cases.terminated "data" "train" "images" "labels".
Proof.
  apply (init_ignores_last_char Cases.loads Cases.unterminated
           Cases.terminated "data" "train" "images" "labels"
           ["street"; "cat"]
           [ascii_of_nat 10; "}"%char] [ascii_of_nat 10; ascii_of_nat 10]).
  - reflexivity.
  - reflexivity.
  - vm_compute. reflexivity.
  - vm_compute. reflexivity.
Defined.

(** ** The dataset adapter: sizes and rows *)

Section DatasetShape.

Variable json_loads : string -> result json.
Variable image : Type.
Variable imread : string -> result image.

Lemma filter_length_all {A : Type} (f : A -> bool) (l : list A) :
  length (List.filter f l) = length l <-> Forall (fun a => f a = true) l.
Proof.
  split.
  - intros H. apply List.Forall_forall. apply List.forallb_forall.
    apply List.filter_length_forallb. exact H.
  - intros H. rewrite List.forallb_filter_id; [reflexivity |].
    apply List.forallb_forall, List.Forall_forall. exact H.
Qed.

Lemma filter_sublist {A : Type} (f : A -> bool) (l : list A) :
  sublist (List.filter f l) l.
Proof.
  induction l as [| a l IH]; cbn; [constructor |].
  destruct (f a); [apply sublist_skip | apply sublist_cons]; exact IH.
Qed.

(** X3. The dataset is never longer than the manifest, its entries come
    in manifest order, and it is as long as the manifest exactly when
    every line has an annotation. *)
Theorem len_at_most_lines (fs : gmap string (list string))
    (dpath channel ipath fname : string) (lines : list string)
    (infos : list json) :
  fs !! manifest_path dpath channel = Some lines ->
  Forall2 (fun line info => json_loads (Py.drop_last line) = Ok info)
          lines infos ->
  Forall (fun info => exists n, annotation_count fname info = Ok n)
         infos ->
  exists ds,
    init json_loads fs dpath channel ipath fname = Ok ds /\
    0 <= len ds <= Z.of_nat (length lines) /\
    sublist (image_info ds) infos /\
    (len ds = Z.of_nat (length lines) <->
     Forall (fun info => has_annotations fname info = true) infos).
Proof.
  intros Hfile Hparse Hcount. unfold init, open_readlines.
  rewrite Hfile. cbn [rbind].
  rewrite (init_lines_keep json_loads fname lines infos [] Hparse Hcount).
  cbn [rbind app]. eexists. split; [reflexivity |].
  unfold len. cbn [image_info].
  pose proof (Forall2_length _ _ _ Hparse) as Hlen.
  pose proof (List.filter_length_le (has_annotations fname) infos) as Hle.
  split; [lia |]. split; [apply filter_sublist |].
  rewrite <- filter_length_all. rewrite Hlen. split; intros H; lia.
Qed.

(** Every entry the constructor stores has an annotation. *)
Lemma init_lines_annotated (fname : string) (lines : list string) :
  forall acc acc',
    Forall (fun info => has_annotations fname info = true) acc ->
    init_lines json_loads fname acc lines = Ok acc' ->
    Forall (fun info => has_annotations fname info = true) acc'.
Proof.
  induction lines as [| line rest IH]; intros acc acc' Hacc Hrun;
    cbn [init_lines] in Hrun.
  - injection Hrun as <-. exact Hacc.
  - unfold init_line in Hrun.
    destruct (json_loads _) as [info | ?]; [| discriminate Hrun].
    cbn [rbind] in Hrun.
    destruct (subscript info fname) as [labels | ?] eqn:Hl;
      [| discriminate Hrun].
    cbn [rbind] in Hrun.
    destruct (subscript labels "annotations") as [anns | ?] eqn:Ha;
      [| discriminate Hrun].
    cbn [rbind] in Hrun.
    destruct (py_len anns) as [n | ?] eqn:Hn; [| discriminate Hrun].
    cbn [rbind] in Hrun.
    destruct (n =? 0) eqn:Hz; cbn [rbind] in Hrun.
    + apply (IH _ _ Hacc Hrun).
    + refine (IH _ _ _ Hrun).
      apply Forall_app. split; [exact Hacc |].
      constructor; [| constructor].
      unfold has_annotations, annotation_count.
      rewrite Hl. cbn [rbind]. rewrite Ha. cbn [rbind]. rewrite Hn, Hz.
      reflexivity.
Qed.

Lemma list_index_elem {A : Type} (l : list A) (i : Z) (a : A) :
  Py.list_index l i = Ok a -> a ∈ l.
Proof.
  unfold Py.list_index.
  destruct (_ || _); [discriminate |].
  destruct (l !! _) as [b |] eqn:Hb; [| discriminate].
  intros [= <-]. eapply list_elem_of_lookup_2. exact Hb.
Qed.

Lemma label_row_shape (box : json) (row : list json) :
  label_row box = Ok row ->
  length row = 5%nat /\ row !! 4%nat = Some (JInt 0).
Proof.
  unfold label_row. intros H.
  repeat match type of H with
         | rbind ?c _ = Ok _ =>
             destruct c; cbn [rbind] in H; [| discriminate H]
         end.
  injection H as <-. split; reflexivity.
Qed.

Lemma label_rows_shape (boxes : list json) :
  forall label label',
    label_rows label boxes = Ok label' ->
    length label' = (length label + length boxes)%nat /\
    (Forall (fun row => length row = 5%nat /\ row !! 4%nat = Some (JInt 0))
            label ->
     Forall (fun row => length row = 5%nat /\ row !! 4%nat = Some (JInt 0))
            label').
Proof.
  induction boxes as [| box rest IH]; intros label label' H;
    cbn [label_rows] in H.
  - injection H as <-. split; [cbn; lia | exact (fun F => F)].
  - destruct (label_row box) as [row |] eqn:Hrow; [| discriminate H].
    cbn [rbind] in H. destruct (IH _ _ H) as [Hlen Hall].
    split; [rewrite Hlen, length_app; cbn; lia |].
    intros Hlabel. apply Hall, Forall_app. split; [exact Hlabel |].
    constructor; [| constructor]. apply (label_row_shape _ _ Hrow).
Qed.

Lemma py_iter_length (v : json) (l : list json) (n : Z) :
  py_iter v = Ok l -> py_len v = Ok n -> Z.of_nat (length l) = n.
Proof.
  destruct v as [| | | s | a | o]; try discriminate; cbn.
  - intros [= <-] [= <-]. rewrite length_fmap. f_equal.
    induction s as [| c s IH]; cbn; [reflexivity | rewrite IH; reflexivity].
  - intros [= <-] [= <-]. reflexivity.
  - intros [= <-] [= <-]. rewrite !length_fmap, length_map_to_list.
    reflexivity.
Qed.

(** X4. Whatever item a dataset built by the constructor returns, its
    label has at least one row, as many rows as the entry has
    annotations, and every row has five columns, the last one 0. *)
Theorem getitem_rows (fs : gmap string (list string))
    (dpath channel ipath fname : string) (ds : GroundTruthDataset)
    (idx : Z) (img : image) (label : list (list json)) :
  init json_loads fs dpath channel ipath fname = Ok ds ->
  getitem image imread ds idx = Ok (img, label) ->
  label <> [] /\
  (exists info,
      Py.list_index (image_info ds) idx = Ok info /\
      annotation_count fname info = Ok (Z.of_nat (length label))) /\
  Forall (fun row => length row = 5%nat /\ row !! 4%nat = Some (JInt 0))
         label.
Proof.
  intros Hinit Hget. unfold init in Hinit.
  destruct (open_readlines _ _) as [lines | ?]; [| discriminate Hinit].
  cbn [rbind] in Hinit.
  destruct (init_lines _ _ _ _) as [infos | ?] eqn:Hlines;
    [| discriminate Hinit].
  cbn [rbind] in Hinit. injection Hinit as <-.
  pose proof (init_lines_annotated fname lines [] infos
                (List.Forall_nil _) Hlines) as Hann.
  unfold getitem in Hget. cbn [image_info field_name image_path] in Hget.
  destruct (Py.list_index infos idx) as [info | ?] eqn:Hidx;
    [| discriminate Hget].
  cbn [rbind] in Hget.
  destruct (subscript info "source-ref") as [[| | | ref | |] | ?];
    try discriminate Hget.
  cbn [rbind] in Hget.
  destruct (imread _) as [img' | ?]; [| discriminate Hget].
  cbn [rbind] in Hget.
  destruct (subscript info fname) as [labels | ?] eqn:Hl;
    [| discriminate Hget].
  cbn [rbind] in Hget.
  destruct (subscript labels "annotations") as [anns | ?] eqn:Ha;
    [| discriminate Hget].
  cbn [rbind] in Hget.
  destruct (py_iter anns) as [boxes | ?] eqn:Hit; [| discriminate Hget].
  cbn [rbind] in Hget.
  destruct (label_rows [] boxes) as [rows | ?] eqn:Hrows;
    [| discriminate Hget].
  cbn [rbind] in Hget. injection Hget as _ <-.
  destruct (label_rows_shape _ _ _ Hrows) as [Hlen Hshape].
  cbn [length Nat.add] in Hlen.
  pose proof (list_index_elem _ _ _ Hidx) as Hin.
  rewrite Forall_forall in Hann. specialize (Hann info Hin).
  unfold has_annotations, annotation_count in Hann.
  rewrite Hl in Hann. cbn [rbind] in Hann. rewrite Ha in Hann.
  cbn [rbind] in Hann.
  destruct (py_len anns) as [n | ?] eqn:Hn; [| discriminate Hann].
  pose proof (py_iter_length _ _ _ Hit Hn) as Hcount.
  split; [| split].
  - intros ->. cbn in Hlen.
    destruct (Z.eqb_spec n 0); [discriminate Hann | lia].
  - exists info. split; [exact Hidx |]. unfold annotation_count.
    rewrite Hl. cbn [rbind]. rewrite Ha. cbn [rbind].
    rewrite Hn, Hlen, Hcount. reflexivity.
  - apply Hshape. constructor.
Qed.

End DatasetShape.

(** The two-line manifest: one entry kept out of two lines. *)
Lemma len_at_most_lines_witness :
  exists ds,
    init Demo.loads Demo.files "data" "train" "images" "labels" = Ok ds /\
    0 <= len ds <= 2.
Proof.
  destruct (len_at_most_lines Demo.loads Demo.files "data" "train"
              "images" "labels"
              ["cat" +:+ Fmt.newline; "street" +:+ Fmt.newline]
              [Demo.cat; Demo.empty_street])
    as (ds & Hinit & Hlen & _).
  - vm_compute. reflexivity.
  - repeat constructor.
  - repeat constructor; eexists; vm_compute; reflexivity.
  - exists ds. split; [exact Hinit | exact Hlen].
Defined.

(** The item of the cat picture has two rows. *)
Lemma getitem_rows_witness :
  exists ds img label,
    init Demo.loads Demo.files "data" "train" "images" "labels" = Ok ds /\
    getitem string Demo.imread ds (-1) = Ok (img, label) /\
    label <> [].
Proof.
  destruct (init Demo.loads Demo.files "data" "train" "images" "labels")
    as [ds | e] eqn:Hinit; [| vm_compute in Hinit; discriminate Hinit].
  destruct (getitem string Demo.imread ds (-1)) as [[img label] | e] eqn:Hget.
  - exists ds, img, label. split; [reflexivity |]. split; [exact Hget |].
    apply (getitem_rows Demo.loads string Demo.imread Demo.files "data"
             "train" "images" "labels" ds (-1) img label Hinit Hget).
  - exfalso. vm_compute in Hinit. injection Hinit as <-.
    vm_compute in Hget. discriminate Hget.
Defined.

(** ** The dataset adapter: indices and bucket-only references *)

Section DatasetIndex.

Variable image : Type.
Variable imread : string -> result image.

Lemma list_index_out_of_range {A : Type} (l : list A) (i : Z) :
  i < - Z.of_nat (length l) \/ Z.of_nat (length l) <= i ->
  Py.list_index l i = Raise IndexError.
Proof.
  intros Hi. unfold Py.list_index.
  destruct (Z.ltb_spec i 0).
  - destruct (Z.ltb_spec (i + Z.of_nat (length l)) 0); [reflexivity | lia].
  - destruct (Z.ltb_spec i 0); [lia |].
    destruct (Z.leb_spec (Z.of_nat (length l)) i); [reflexivity | lia].
Qed.

Lemma list_index_negative {A : Type} (l : list A) (i : Z) :
  - Z.of_nat (length l) <= i < 0 ->
  Py.list_index l i = Py.list_index l (i + Z.of_nat (length l)).
Proof.
  intros Hi. unfold Py.list_index.
  destruct (Z.ltb_spec i 0); [| lia].
  destruct (Z.ltb_spec (i + Z.of_nat (length l)) 0); [lia |].
  cbn zeta iota.
  destruct (Z.ltb_spec (i + Z.of_nat (length l)) 0); [lia |].
  reflexivity.
Qed.

(** X5. An index outside [-len, len) makes [__getitem__] raise
    [IndexError]; a negative index inside it counts from the end, so it
    returns what the index [idx + len] returns. *)
Theorem getitem_index (ds : GroundTruthDataset) (idx : Z) :
  (idx < - len ds \/ len ds <= idx ->
   getitem image imread ds idx = Raise IndexError) /\
  (- len ds <= idx < 0 ->
   getitem image imread ds idx = getitem image imread ds (idx + len ds)).
Proof.
  unfold getitem, len. split; intros Hi.
  - rewrite (list_index_out_of_range _ _ Hi). reflexivity.
  - rewrite (list_index_negative _ _ Hi). reflexivity.
Qed.

Lemma find_sep_absent (sep : ascii) (s : string) :
  sep ∉ list_ascii_of_string s -> Py.find_sep sep s = None.
Proof.
  induction s as [| c s IH]; [reflexivity |].
  cbn [list_ascii_of_string Py.find_sep]. intros Hno.
  destruct (Ascii.eqb_spec c sep) as [-> | _];
    [exfalso; apply Hno; left |].
  rewrite IH; [reflexivity |]. intros Hin. apply Hno. right. exact Hin.
Qed.

(** X6. A source-ref that names only a bucket, ["s3://<bucket>"] with no
    slash after it, is reduced to the empty text, and the image is read
    from [image_path] itself, with a slash added unless [image_path] is
    empty or ends with one. *)
Theorem getitem_bucket_only (ds : GroundTruthDataset) (idx : Z)
    (o labels : gmap string json) (bucket : string) (anns : list json)
    (boxes : list (Z * Z * Z * Z)) :
  - len ds <= idx < len ds ->
  image_info ds !! Z.to_nat (idx mod len ds) = Some (JObj o) ->
  o !! "source-ref" = Some (JStr ("s3://" +:+ bucket)) ->
  Py.no_slash bucket ->
  o !! field_name ds = Some (JObj labels) ->
  labels !! "annotations" = Some (JArr anns) ->
  mapM box_of anns = Some boxes ->
  source_ref_of ("s3://" +:+ bucket) = "" /\
  getitem image imread ds idx =
    (let! img :=
       imread (if String.eqb (image_path ds) "" ||
                  Py.endswith_char Py.slash (image_path ds)
               then image_path ds
               else image_path ds +:+ "/") in
     Ok (img, corner_row <$> boxes)).
Proof.
  intros Hidx Hinfo Href Hno Hlabels Hanns Hboxes.
  assert (source_ref_of ("s3://" +:+ bucket) = "") as Hsrc.
  { unfold source_ref_of.
    change ("s3://" +:+ bucket)
      with (String "s" (String "3" (String ":" (String "/" (String "/"
              bucket))))).
    cbn [Py.slice_to Py.slice_from].
    change (String.eqb "s3://" "s3://") with true. cbn iota.
    unfold Py.partition. rewrite (find_sep_absent _ _ Hno). reflexivity. }
  split; [exact Hsrc |].
  unfold getitem. unfold len in Hidx, Hinfo.
  rewrite (list_index_mod _ _ _ Hidx Hinfo). cbn [rbind subscript].
  rewrite Href. cbn [rbind]. rewrite Hsrc.
  change (Py.path_join (image_path ds) (Py.split Py.slash ""))
    with (Py.join_step (image_path ds) "").
  assert (Py.join_step (image_path ds) "" =
          (if String.eqb (image_path ds) "" ||
              Py.endswith_char Py.slash (image_path ds)
           then image_path ds else image_path ds +:+ "/")) as ->.
  { unfold Py.join_step. change (Py.startswith "/" "") with false.
    cbn iota. destruct (_ || _).
    - induction (image_path ds) as [| c p IH]; [reflexivity |].
      change (String c p +:+ "") with (String c (p +:+ "")).
      rewrite IH. reflexivity.
    - reflexivity. }
  destruct (imread _) as [img | e]; [| reflexivity]. cbn [rbind].
  rewrite Hlabels. cbn [rbind subscript]. rewrite Hanns.
  cbn [rbind py_iter].
  rewrite (label_rows_boxes _ _ [] Hboxes). reflexivity.
Qed.

End DatasetIndex.

(** The bucket-only entry is read from ["images/"]. *)
Lemma getitem_bucket_only_witness :
  getitem string Demo.imread Cases.bucket_dataset 0 =
    Ok ("images/",
        [[JInt 10; JInt 20; JInt 40; JInt 60; JInt 0];
         [JInt 1; JInt 2; JInt 4; JInt 6; JInt 0]]).
Proof.
  destruct (getitem_bucket_only string Demo.imread Cases.bucket_dataset 0
              (Demo.fields_of "s3://bucket" Demo.cat_boxes)
              (Demo.labels_of Demo.cat_boxes) "bucket" Demo.cat_boxes
              [(10, 20, 30, 40); (1, 2, 3, 4)])
    as [_ Hget].
  - unfold len. cbn. lia.
  - reflexivity.
  - vm_compute. reflexivity.
  - intros Hin. vm_compute in Hin.
    repeat (apply elem_of_cons in Hin as [Hin | Hin];
            [discriminate Hin |]).
    apply elem_of_nil in Hin. exact Hin.
  - vm_compute. reflexivity.
  - vm_compute. reflexivity.
  - vm_compute. reflexivity.
  - rewrite Hget. reflexivity.
Defined.

(** A dataset of one entry: index 1 is out of range, index -1 is index 0. *)
Lemma getitem_index_witness :
  getitem string Demo.imread Demo.dataset 1 = Raise IndexError /\
  getitem string Demo.imread Demo.dataset (-1) =
  getitem string Demo.imread Demo.dataset 0.
Proof.
  destruct (getitem_index string Demo.imread Demo.dataset 1) as [Hout _].
  destruct (getitem_index string Demo.imread Demo.dataset (-1)) as [_ Hneg].
  split.
  - apply Hout. right. unfold len. cbn. lia.
  - apply Hneg. unfold len. cbn. lia.
Defined.

(** ** Checkpoints and the training loop: invariants and edges *)

Section LoopFacts.

Context {F : Framework}.

(** X7. [save_params] raises [IndexError] on an empty [best_map]; on any
    other list it keeps the length and every element but the first, and
    writes at most three outputs. *)
Theorem save_params_frame net (cur : Q) (epoch si : Z) (prefix : string) :
  save_params net [] cur epoch si prefix = Raise IndexError /\
  forall (best_map best_map' : list Q) files,
    save_params net best_map cur epoch si prefix = Ok (best_map', files) ->
    length best_map' = length best_map /\
    (forall i : nat, (0 < i)%nat -> best_map' !! i = best_map !! i) /\
    (length files <= 3)%nat.
Proof.
  split; [reflexivity |].
  intros bm bm' files H. unfold save_params in H.
  destruct (Py.list_index bm 0) as [b |]; [| discriminate H].
  cbn [rbind] in H.
  destruct (Qlt_le_dec b cur); destruct (negb _ && _);
    injection H as <- <-; cbn [length app];
    rewrite ?length_insert; (split; [reflexivity |]);
    (split; [| lia]); intros i Hi;
    try reflexivity; apply list_lookup_insert_ne; lia.
Qed.

Lemma save_params_singleton net (b cur : Q) (epoch si : Z)
    (prefix : string) :
  exists b' files,
    save_params net [b] cur epoch si prefix = Ok ([b'], files) /\
    (b <= b')%Q /\
    (best_logs files <= 1)%nat /\
    ((cur <= b)%Q -> best_logs files = 0%nat /\ b' = b).
Proof.
  unfold save_params. change (Py.list_index [b] 0) with (Ok b).
  cbn [rbind].
  destruct (Qlt_le_dec b cur) as [Hlt | Hle].
  - exists cur.
    destruct (negb _ && _); eexists; (split; [reflexivity |]);
      (split; [apply Qlt_le_weak; exact Hlt |]);
      (split; [cbn; lia |]);
      intros Hc; exfalso; eapply Qle_not_lt; eassumption.
  - exists b.
    destruct (negb _ && _); eexists; (split; [reflexivity |]);
      (split; [apply Qle_refl |]);
      (split; [cbn; lia |]); intros _; split; reflexivity.
Qed.

Lemma best_logs_app (a b : list output) :
  best_logs (a ++ b) = (best_logs a + best_logs b)%nat.
Proof. unfold best_logs. rewrite List.filter_app, length_app. reflexivity. Qed.

Lemma best_logs_batch_output (out : list output) :
  Forall (fun o => batch_output o = true) out -> best_logs out = 0%nat.
Proof.
  unfold best_logs. induction 1 as [| o out Ho _ IH]; [reflexivity |].
  cbn [List.filter]. destruct o; try discriminate Ho; exact IH.
Qed.

Lemma files_batch_output args (out : list output) :
  Forall (fun o => batch_output o = true) out -> Forall (placed args) out.
Proof.
  induction 1 as [| o out Ho _ IH]; [constructor |].
  constructor; [| exact IH]. destruct o; try discriminate Ho; exact I.
Qed.

(** What one batch emits: its progress line and, when asked for, one
    batch log record. *)
Lemma train_batch_emits ctx args epoch w i batch w' :
  train_batch ctx args epoch w i batch = Ok w' ->
  exists extra,
    w_out w' =
      w_out w ++
      Print [PStr "epoch "; PInt epoch; PStr ", batch "; PInt i] :: extra /\
    omap logged_batch extra = (if logs_batch args i then [i] else []) /\
    Forall (fun o => batch_output o = true) extra.
Proof.
  unfold train_batch, logs_batch. intros H.
  bind_ok H. bind_ok H. bind_ok H. bind_ok H.
  destruct a2 as [net l].
  destruct (trainer_step _ _ _) as [trainer net0].
  destruct (negb _ && _); injection H as <-; cbn [emit w_out].
  - eexists [_]. rewrite <- app_assoc. split; [reflexivity |].
    split; [reflexivity |]. repeat constructor.
  - exists []. split; [reflexivity |]. split; [reflexivity | constructor].
Qed.

Lemma train_batches_emit ctx args epoch batches :
  forall i w w',
    for_enumerate (train_batch ctx args epoch) i batches w = Ok w' ->
    exists out,
      w_out w' = w_out w ++ out /\
      Forall (fun o => batch_output o = true) out /\
      omap logged_batch out =
        List.filter (logs_batch args)
          ((fun k => i + Z.of_nat k) <$> seq 0 (length batches)).
Proof.
  induction batches as [| b rest IH]; intros i w w' H;
    cbn [for_enumerate] in H.
  - injection H as <-. exists []. rewrite app_nil_r.
    split; [reflexivity |]. split; [constructor | reflexivity].
  - bind_ok H. destruct (train_batch_emits _ _ _ _ _ _ _ E)
      as (extra & Hout & Hlog & Hall).
    destruct (IH _ _ _ H) as (out & Hout' & Hall' & Hlog').
    exists (Print [PStr "epoch "; PInt epoch; PStr ", batch "; PInt i]
              :: extra ++ out).
    split; [| split].
    + rewrite Hout', Hout, <- app_assoc. reflexivity.
    + constructor; [reflexivity |]. apply Forall_app. split; assumption.
    + cbn [omap list_omap logged_batch length seq fmap list_fmap].
      rewrite omap_app, Hlog, Hlog'. cbn [List.filter].
      replace (i + Z.of_nat 0) with i by lia.
      rewrite <- seq_shift, <- list_fmap_compose.
      replace (List.filter (logs_batch args)
                 ((fun k => i + 1 + Z.of_nat k) <$> seq 0 (length rest)))
        with (List.filter (logs_batch args)
                (((fun k => i + Z.of_nat k) ∘ S) <$> seq 0 (length rest))).
      * destruct (logs_batch args i); reflexivity.
      * f_equal. apply list_fmap_ext. intros k x _. cbn. lia.
Qed.

(** X8. Within an epoch a batch log record is written after exactly the
    batches [i] with [(i + 1)] a multiple of [args.log_interval], in
    order, and never when [args.log_interval] is 0. *)
Theorem batch_log_schedule ctx args epoch batches w w' :
  for_enumerate (train_batch ctx args epoch) 0 batches w = Ok w' ->
  omap logged_batch (w_out w') =
    omap logged_batch (w_out w) ++
    List.filter (fun i => (i + 1) mod log_interval args =? 0)
      (if log_interval args =? 0 then []
       else Fmt.range 0 (Z.of_nat (length batches))).
Proof.
  intros H. destruct (train_batches_emit _ _ _ _ _ _ _ H)
    as (out & Hout & _ & Hlog).
  rewrite Hout, omap_app, Hlog. f_equal. clear.
  unfold Fmt.range. rewrite Z.sub_0_r, Nat2Z.id.
  unfold logs_batch. destruct (log_interval args =? 0).
  - cbn [negb andb]. generalize ((fun k => 0 + Z.of_nat k) <$>
                                 seq 0 (length batches)).
    intros l. induction l as [| x l IH]; [reflexivity | exact IH].
  - reflexivity.
Qed.

Lemma prefix_append (p s : string) : String.prefix p (p +:+ s) = true.
Proof.
  induction p as [| c p IH]; [destruct s; reflexivity |].
  change (String c p +:+ s) with (String c (p +:+ s)).
  cbn [String.prefix]. destruct (ascii_dec c c); [exact IH | contradiction].
Qed.

(** The outputs of the validation branch: the one record goes to the
    training log, and without validation the map is 0. *)
Lemma epoch_validation_emits ctx args epoch w cur w' :
  epoch_validation ctx args epoch w = Ok (cur, w') ->
  exists out,
    w_out w' = w_out w ++ out /\
    best_logs out = 0%nat /\ Forall (placed args) out /\
    (validates args epoch = false -> cur = 0%Q).
Proof.
  unfold epoch_validation, validates. intros H.
  destruct (val_interval args =? 0); [discriminate H |].
  destruct ((epoch + 1) mod val_interval args =? 0).
  - bind_ok H. destruct a as [r w1]. bind_ok H. injection H as _ <-.
    apply validate_out in E. cbn [emit w_out] in E |- *. rewrite E.
    eexists [_; _; _]. rewrite <- !app_assoc.
    split; [reflexivity |]. split; [reflexivity |].
    split; [repeat constructor | discriminate].
  - injection H as <- <-. exists []. rewrite app_nil_r.
    split; [reflexivity |]. split; [reflexivity |].
    split; [constructor | reflexivity].
Qed.

Lemma save_params_files args net (best_map : list Q) cur epoch si
    best_map' files :
  save_params net best_map cur epoch si
              (Py.path_join (model_dir args) ["yolov3"])
    = Ok (best_map', files) ->
  Forall (placed args) files.
Proof.
  unfold save_params. intros H. bind_ok H.
  assert (forall s,
             String.prefix
               (Py.path_join (model_dir args) ["yolov3"] +:+ "_")
               (Py.path_join (model_dir args) ["yolov3"] +:+ "_" +:+ s)
             = true) as Hp.
  { intros s. rewrite <- append_assoc. apply prefix_append. }
  destruct (Qlt_le_dec a cur); destruct (negb _ && _);
    injection H as _ <-; cbn [app];
    repeat constructor; cbn [placed];
    first [apply Hp | apply (Hp "best.params") | reflexivity].
Qed.


(** One epoch, started with a one-element [best_map]. *)
Lemma train_epoch_best ctx args w (b : Q) epoch w' best_map' :
  train_epoch ctx args (w, [b]) epoch = Ok (w', best_map') ->
  (0 <= b)%Q ->
  exists b' out,
    best_map' = [b'] /\ (b <= b')%Q /\
    w_out w' = w_out w ++ out /\
    (best_logs out <= if validates args epoch then 1 else 0)%nat /\
    (validates args epoch = false -> b' = b) /\
    Forall (placed args) out.
Proof.
  unfold train_epoch. intros H Hb.
  destruct (train_iter _) as [batches tl].
  bind_ok H. bind_ok H. destruct a0 as [cur w2].
  bind_ok H. destruct a0 as [bm files]. injection H as <- <-.
  destruct (train_batches_emit _ _ _ _ _ _ _ E) as (bout & Hbout & Hall & _).
  destruct (epoch_validation_emits _ _ _ _ _ _ E0)
    as (vout & Hvout & Hvbest & Hvfiles & Hcur).
  pose proof (save_params_files args _ _ _ _ _ _ _ E1) as Hfiles.
  destruct (save_params_singleton (w_net w2) b cur epoch
              (save_interval args)
              (Py.path_join (model_dir args) ["yolov3"]))
    as (b' & files' & Hsave & Hle & Hone & Hzero).
  rewrite Hsave in E1. injection E1 as <- <-.
  exists b', (bout ++ LogEpoch epoch (loss_names a) :: vout ++ files').
  split; [reflexivity |]. split; [exact Hle |].
  assert (w_out (with_train tl
                   (with_net (net_hybridize (w_net (epoch_mixup args epoch w)))
                             (epoch_mixup args epoch w))) = w_out w) as Hw.
  { unfold epoch_mixup. destruct (mixup args); [| reflexivity].
    destruct (_ <=? _); reflexivity. }
  split; [| split; [| split]].
  - cbn [emit w_out]. rewrite Hvout. cbn [emit w_out].
    rewrite Hbout, Hw, <- !app_assoc. reflexivity.
  - rewrite best_logs_app, (best_logs_batch_output _ Hall).
    change (LogEpoch epoch (loss_names a) :: vout ++ files')
      with ([LogEpoch epoch (loss_names a)] ++ vout ++ files').
    rewrite !best_logs_app, Hvbest. cbn [best_logs List.filter is_append
                                         length Nat.add].
    destruct (validates args epoch) eqn:Hv; [exact Hone |].
    destruct Hzero as [Hz _]; [| lia].
    rewrite (Hcur eq_refl). exact Hb.
  - intros Hv. apply Hzero. rewrite (Hcur Hv). exact Hb.
  - apply Forall_app. split; [apply (files_batch_output args _ Hall) |].
    constructor; [exact I |].
    apply Forall_app. split; [exact Hvfiles | exact Hfiles].
Qed.

Lemma train_epochs_best ctx args es :
  forall w (b : Q) w' best_map',
    for_each (train_epoch ctx args) es (w, [b]) = Ok (w', best_map') ->
    (0 <= b)%Q ->
    exists b' out,
      best_map' = [b'] /\ (b <= b')%Q /\
      w_out w' = w_out w ++ out /\
      (best_logs out <= length (List.filter (validates args) es))%nat /\
      (List.filter (validates args) es = [] -> b' = b) /\
      Forall (placed args) out.
Proof.
  induction es as [| e rest IH]; intros w b w' bm' H Hb;
    cbn [for_each] in H.
  - injection H as <- <-. exists b, []. rewrite app_nil_r.
    repeat split; try apply Qle_refl; constructor.
  - bind_ok H. destruct a as [w1 bm1].
    destruct (train_epoch_best _ _ _ _ _ _ _ E Hb)
      as (b1 & out1 & -> & Hle1 & Hout1 & Hbest1 & Hsame1 & Hf1).
    destruct (IH _ _ _ _ H (Qle_trans _ _ _ Hb Hle1))
      as (b2 & out2 & -> & Hle2 & Hout2 & Hbest2 & Hsame2 & Hf2).
    exists b2, (out1 ++ out2). split; [reflexivity |].
    split; [eapply Qle_trans; eassumption |].
    split; [rewrite Hout2, Hout1, <- app_assoc; reflexivity |].
    split; [| split].
    + rewrite best_logs_app. cbn [List.filter].
      destruct (validates args e); cbn [length]; lia.
    + cbn [List.filter]. destruct (validates args e) eqn:Hv;
        [discriminate |].
      intros Hnil. rewrite (Hsame2 Hnil). apply Hsame1. reflexivity.
    + apply Forall_app. split; assumption.
Qed.

(** X9. When a run completes, [best_map] is still a one-element list and
    its value is not negative; the best-map log has at most one line per
    validated epoch, and none, with the best still 0, when no epoch is
    validated. *)
Theorem train_best_map net trainer train_data val_data eval_metric ctx
    args w best_map :
  train net trainer train_data val_data eval_metric ctx args
    = Ok (w, best_map) ->
  exists b,
    best_map = [b] /\ (0 <= b)%Q /\
    (best_logs (w_out w) <=
     length (List.filter (validates args)
               (Fmt.range (start_epoch args) (epochs args))))%nat /\
    (List.filter (validates args)
       (Fmt.range (start_epoch args) (epochs args)) = [] -> b = 0%Q).
Proof.
  unfold train. intros H.
  destruct (train_epochs_best _ _ _ _ _ _ _ H (Qle_refl 0))
    as (b & out & -> & Hle & Hout & Hbest & Hsame & _).
  exists b. repeat split; try assumption.
  rewrite Hout. cbn [initial_world w_out].
  rewrite best_logs_app. cbn. exact Hbest.
Qed.


End LoopFacts.

(** ** The training loop: failures and frames *)

Section LoopEdges.

Context {F : Framework}.

Lemma range_empty (a b : Z) : b <= a -> Fmt.range a b = [].
Proof.
  intros H. unfold Fmt.range.
  replace (Z.to_nat (b - a)) with 0%nat by lia. reflexivity.
Qed.

Lemma range_cons (a b : Z) :
  a < b -> Fmt.range a b = a :: Fmt.range (a + 1) b.
Proof.
  intros H. unfold Fmt.range.
  replace (Z.to_nat (b - a)) with (S (Z.to_nat (b - (a + 1)))) by lia.
  cbn [seq fmap list_fmap]. f_equal; [lia |].
  rewrite <- seq_shift, <- list_fmap_compose.
  apply list_fmap_ext. intros k x _. cbn. lia.
Qed.

(** X11. With [args.val_interval] 0 the validation test divides by zero:
    a run of at least one epoch never completes, and a run of no epoch
    returns at once with the state and the best map it started from. *)
Theorem val_interval_zero net trainer train_data val_data eval_metric ctx
    args :
  val_interval args = 0 ->
  (forall epoch w,
      epoch_validation ctx args epoch w = Raise ZeroDivisionError) /\
  (start_epoch args < epochs args ->
   exists e,
     train net trainer train_data val_data eval_metric ctx args
     = Raise e) /\
  (epochs args <= start_epoch args ->
   train net trainer train_data val_data eval_metric ctx args =
   Ok (initial_world net trainer train_data val_data eval_metric args,
       [0%Q])).
Proof.
  intros Hvi.
  assert (forall epoch w,
             epoch_validation ctx args epoch w = Raise ZeroDivisionError)
    as Hval.
  { intros epoch w. unfold epoch_validation. rewrite Hvi. reflexivity. }
  split; [exact Hval |]. split.
  - intros Hlt. unfold train. rewrite (range_cons _ _ Hlt).
    cbn [for_each]. unfold train_epoch at 1.
    destruct (train_iter _) as [batches tl].
    destruct (for_enumerate _ _ _ _) as [w1 | e];
      [| exists e; reflexivity].
    cbn [rbind]. rewrite Hval. exists ZeroDivisionError. reflexivity.
  - intros Hle. unfold train. rewrite (range_empty _ _ Hle). reflexivity.
Qed.

Lemma list_index_lookup {A : Type} (l : list A) (i : Z) (a : A) :
  0 <= i -> l !! Z.to_nat i = Some a -> Py.list_index l i = Ok a.
Proof.
  intros Hi Hl. rewrite <- (Z2Nat.id i Hi). apply list_index_nat, Hl.
Qed.

(** X12. A training batch with fewer than seven arrays makes the batch
    step raise [IndexError]; arrays beyond the seventh are ignored. *)
Theorem train_batch_arity ctx args epoch w i (batch extra : list NDArray) :
  ((length batch < 7)%nat ->
   train_batch ctx args epoch w i batch = Raise IndexError) /\
  (length batch = 7%nat ->
   train_batch ctx args epoch w i (batch ++ extra) =
   train_batch ctx args epoch w i batch).
Proof.
  split; intros Hlen.
  - do 7 (destruct batch as [| ? batch]; [reflexivity |]).
    cbn in Hlen. lia.
  - do 7 (destruct batch as [| ? batch]; [discriminate Hlen |]).
    destruct batch; [| discriminate Hlen].
    unfold train_batch. cbn [app].
    change (Fmt.range 1 6) with [1; 2; 3; 4; 5]. cbn [load_targets].
    repeat match goal with
           | |- context [Py.list_index ?l ?k] =>
               match l with
               | context [extra] =>
                   erewrite (list_index_lookup l k);
                   [| lia | reflexivity]
               end
           end.
    reflexivity.
Qed.

End LoopEdges.

(** ** Validation *)

Section ValidationFacts.

Context {F : Framework}.

(** X13. [validate] touches the network, the detection metric and the
    validation loader only: the trainer, the four loss metrics, the
    training loader and the output are as before, and the value returned
    is the reading of the metric it leaves behind. *)
Theorem validate_frame ctx w r w' :
  validate ctx w = Ok (r, w') ->
  r = eval_get (w_eval w') /\
  w_trainer w' = w_trainer w /\
  w_obj w' = w_obj w /\ w_center w' = w_center w /\
  w_scale w' = w_scale w /\ w_cls w' = w_cls w /\
  w_train w' = w_train w /\ w_out w' = w_out w.
Proof.
  unfold validate. intros H.
  destruct (val_iter (w_val w)) as [batches vl].
  destruct (for_each _ _ _) as [[net metric] | e]; [| discriminate H].
  injection H as <- <-. repeat split.
Qed.

Lemma validate_slices_spec (width : Z) (pairs : list (NDArray * NDArray)) :
  forall net d,
    exists net' bb ids sc,
      fold_left (validate_slice width) pairs (net, d) =
        (net',
         {| det_bboxes := det_bboxes d ++ bb;
            det_ids := det_ids d ++ ids;
            det_scores := det_scores d ++ sc;
            gt_bboxes :=
              gt_bboxes d ++ ((fun p => nd_slice_last p.2 0 4) <$> pairs);
            gt_ids :=
              gt_ids d ++ ((fun p => nd_slice_last p.2 4 5) <$> pairs) |})
      /\ length bb = length pairs /\ length ids = length pairs
      /\ length sc = length pairs.
Proof.
  induction pairs as [| [x y] rest IH]; intros net d.
  - exists net, [], [], []. cbn. rewrite !app_nil_r.
    destruct d; repeat split.
  - cbn [fold_left]. unfold validate_slice at 2.
    destruct (net_predict net x) as [[[ids scores] bboxes] net1].
    destruct (IH net1
                {| det_ids := det_ids d ++ [ids];
                   det_scores := det_scores d ++ [scores];
                   det_bboxes := det_bboxes d ++ [nd_clip bboxes 0 width];
                   gt_ids := gt_ids d ++ [nd_slice_last y 4 5];
                   gt_bboxes := gt_bboxes d ++ [nd_slice_last y 0 4] |})
      as (net' & bb & ids0 & sc & Hfold & Hbb & His & Hsc).
    exists net', (nd_clip bboxes 0 width :: bb), (ids :: ids0),
           (scores :: sc).
    rewrite Hfold. cbn [det_bboxes det_ids det_scores gt_bboxes gt_ids].
    rewrite <- !app_assoc. cbn. repeat split; congruence.
Qed.

(** X14. A validation batch with fewer than two arrays raises
    [IndexError].  Otherwise the metric is updated once, with one
    detection per pair of a data slice and a label slice; the ground-truth
    boxes are columns 0 to 3 and the ground-truth ids column 4 of the
    label slices. *)
Theorem validate_batch_detections ctx net metric (batch : list NDArray) :
  ((length batch < 2)%nat ->
   validate_batch ctx (net, metric) batch = Raise IndexError) /\
  (forall b0 b1 rest,
      batch = b0 :: b1 :: rest ->
      exists net' bb ids sc,
        validate_batch ctx (net, metric) batch =
          Ok (net',
              eval_update metric bb ids sc
                ((fun p => nd_slice_last p.2 0 4) <$>
                 zip (split_and_load b0 ctx) (split_and_load b1 ctx))
                ((fun p => nd_slice_last p.2 4 5) <$>
                 zip (split_and_load b0 ctx) (split_and_load b1 ctx))) /\
        length bb = length (zip (split_and_load b0 ctx)
                                (split_and_load b1 ctx)) /\
        length ids = length bb /\ length sc = length bb).
Proof.
  split.
  - intros Hlen.
    do 2 (destruct batch as [| ? batch]; [reflexivity |]).
    cbn in Hlen. lia.
  - intros b0 b1 rest ->. unfold validate_batch.
    rewrite (list_index_lookup (b0 :: b1 :: rest) 0 b0)
      by first [lia | reflexivity].
    rewrite (list_index_lookup (b0 :: b1 :: rest) 1 b1)
      by first [lia | reflexivity].
    cbn [rbind].
    destruct (validate_slices_spec (nd_shape b0 2)
                (zip (split_and_load b0 ctx) (split_and_load b1 ctx)) net
                {| det_bboxes := []; det_ids := []; det_scores := [];
                   gt_bboxes := []; gt_ids := [] |})
      as (net' & bb & ids & sc & Hfold & Hbb & Hids & Hsc).
    rewrite Hfold. exists net', bb, ids, sc.
    split; [reflexivity |]. repeat split; congruence.
Qed.

End ValidationFacts.

(** ** Devices and the network *)

Lemma range_length (a b : Z) : length (Fmt.range a b) = Z.to_nat (b - a).
Proof. unfold Fmt.range. rewrite length_fmap, length_seq. reflexivity. Qed.

(** X15. The list of training contexts is never empty: it is the GPUs
    [0 .. num_gpus - 1] when [args.num_gpus] is positive and the CPU alone
    otherwise. *)
Theorem training_contexts_spec (args : Args) :
  training_contexts args <> [] /\
  Z.of_nat (length (training_contexts args)) = Z.max 1 (num_gpus args) /\
  (num_gpus args <= 0 -> training_contexts args = [mx_cpu]) /\
  (1 <= num_gpus args ->
   training_contexts args = mx_gpu <$> Fmt.range 0 (num_gpus args)).
Proof.
  unfold training_contexts.
  pose proof (range_length 0 (num_gpus args)) as Hlen.
  destruct (mx_gpu <$> Fmt.range 0 (num_gpus args)) as [| c cs] eqn:Hctx.
  - apply fmap_nil_inv in Hctx. rewrite Hctx in Hlen. cbn in Hlen.
    split; [discriminate |]. split; [cbn; lia |].
    split; [reflexivity |]. intros Hn. lia.
  - assert (length (c :: cs) = Z.to_nat (num_gpus args - 0)) as Hl
      by (rewrite <- Hctx, length_fmap; exact Hlen).
    split; [discriminate |]. split; [rewrite Hl; cbn in Hl; lia |].
    split; [| reflexivity]. intros Hn. cbn in Hl. lia.
Qed.

(** X16. The multi-device branch is taken exactly when [--syncbn] is given
    and [args.num_gpus] is at least 2; only then is [async_net] a model of
    its own.  On that branch, passing [--pretrained], a store-false flag,
    switches the full pretrained weights off. *)
Theorem multi_device_branch (args : Args) :
  (1 < sync_bn_devices args <-> syncbn args = true /\ 2 <= num_gpus args) /\
  ((main_network args).1.2 = AsyncIsNet <->
   ~ (syncbn args = true /\ 2 <= num_gpus args)) /\
  (forall argv,
      pretrained args = pretrained_flag argv ->
      syncbn args = true -> 2 <= num_gpus args ->
      (gm_pretrained (main_network args).1.1 = Some true <->
       "--pretrained" ∉ argv)).
Proof.
  destruct (training_contexts_spec args) as (_ & Hlen & _ & _).
  assert (1 < sync_bn_devices args <->
          syncbn args = true /\ 2 <= num_gpus args) as Hbranch.
  { unfold sync_bn_devices. destruct (syncbn args).
    - rewrite Hlen. split; [intros H; split; [reflexivity | lia] |].
      intros [_ H]. lia.
    - split; [lia | intros [H _]; discriminate H]. }
  split; [exact Hbranch |]. split.
  - unfold main_network.
    destruct (Z.ltb_spec 1 (sync_bn_devices args)) as [Hlt | Hle].
    + destruct (pretrained args); cbn; split; [discriminate | |
        discriminate |]; intros Hn; exfalso; apply Hn, Hbranch, Hlt.
    + cbn. split; [| reflexivity]. intros _ Hn.
      apply Hbranch in Hn. lia.
  - intros argv Hflag Hsync Hgpus. unfold main_network.
    destruct (Z.ltb_spec 1 (sync_bn_devices args)) as [_ | Hle];
      [| exfalso; assert (1 < sync_bn_devices args)
                    by (apply Hbranch; split; assumption); lia].
    rewrite Hflag. unfold pretrained_flag, store_false.
    destruct (bool_decide_reflect ("--pretrained" ∈ argv)) as [Hin | Hin];
      cbn; split; intros H; try reflexivity; try assumption;
      try discriminate H; contradiction.
Qed.

(** ** Names read by [validate_train] *)

(** X17. Were [args] to offer [disable_hybridization] (true here, so that
    [static_alloc] is not asked for), [validate_train] would go on to
    iterate the module global [val_data], not its parameter [train_data]:
    it raises [NameError] for [val_data] when that global is unbound,
    returns normally when the loader yields no batch, and raises
    [NameError] for [gt_difficults], which nothing in the script binds, at
    the first batch otherwise. *)
Theorem validate_train_later_names (G : globals)
    (attrs : gmap string pyobj) :
  G !! "gcv" = Some PModule ->
  G !! "args" = Some (PNamespace attrs) ->
  attrs !! "disable_hybridization" = Some (PBool true) ->
  (G !! "val_data" = None ->
   validate_train G = Raise (NameError "val_data")) /\
  (G !! "val_data" = Some (PLoader 0) -> validate_train G = Ok tt) /\
  (forall n,
      G !! "val_data" = Some (PLoader (S n)) ->
      G !! "gluon" = Some PModule ->
      G !! "gt_difficults" = None ->
      validate_train G = Raise (NameError "gt_difficults")).
Proof.
  intros Hgcv Hargs Hattr. unfold validate_train, load.
  rewrite Hgcv, Hargs. cbn [rbind getattr]. rewrite Hattr.
  cbn [rbind truthy]. split; [| split].
  - intros Hval. rewrite Hval. reflexivity.
  - intros Hval. rewrite Hval. reflexivity.
  - intros n Hval Hgluon Hgt. rewrite Hval.
    cbn [rbind iterate replicate for_each].
    unfold validate_train_batch, load. rewrite Hgluon, Hgt. cbn [rbind].
    destruct (G !! "zip"); reflexivity.
Qed.

(** A loader of two batches: the first batch already fails. *)
Lemma validate_train_later_names_witness :
  validate_train (Hybrid.with_batches 0) = Ok tt /\
  validate_train (Hybrid.with_batches 2) = Raise (NameError "gt_difficults") /\
  validate_train Hybrid.base = Raise (NameError "val_data").
Proof.
  destruct (validate_train_later_names (Hybrid.with_batches 0)
              {[ "disable_hybridization" := PBool true ]})
    as (_ & Hnone & _); try (vm_compute; reflexivity).
  destruct (validate_train_later_names (Hybrid.with_batches 2)
              {[ "disable_hybridization" := PBool true ]})
    as (_ & _ & Hsome); try (vm_compute; reflexivity).
  destruct (validate_train_later_names Hybrid.base
              {[ "disable_hybridization" := PBool true ]})
    as (Hunbound & _ & _); try (vm_compute; reflexivity).
  split; [apply Hnone; vm_compute; reflexivity |].
  split; [apply (Hsome 1%nat); vm_compute; reflexivity |].
  apply Hunbound. vm_compute. reflexivity.
Defined.

(** ** The datasets *)

Section GetDatasetFacts.

Variable json_loads : string -> result json.
Variable listdir : string -> result (list string).

(** X18. When [get_dataset] returns, [num_samples] is never negative: a
    negative value has been replaced by the length of the training set,
    counted before any mixup wrapping, and any other value is kept.
    Both sets read the task ["labels"] and the same image directory. *)
Theorem get_dataset_num_samples (fs : gmap string (list string))
    (args : DataArgs) (d : datasets) :
  get_dataset json_loads listdir fs args = Ok d ->
  (a_num_samples args < 0 ->
   d_num_samples d = len (unwrap (d_train d))) /\
  (0 <= a_num_samples args -> d_num_samples d = a_num_samples args) /\
  0 <= d_num_samples d /\
  init json_loads fs (a_train args) "train" (a_images args) "labels"
    = Ok (unwrap (d_train d)) /\
  init json_loads fs (a_test args) "validation" (a_images args) "labels"
    = Ok (d_val d) /\
  (d_train d = MixupDetection (unwrap (d_train d)) <-> a_mixup args = true).
Proof.
  unfold get_dataset. intros H.
  destruct (listdir "/opt/ml/input/data/") as [top | ?];
    [| discriminate H].
  cbn [rbind] in H.
  destruct (listdir "/opt/ml/input/data/train/") as [sub | ?];
    [| discriminate H].
  cbn [rbind] in H.
  destruct (init json_loads fs (a_train args) _ _ _) as [tr | ?];
    [| discriminate H].
  cbn [rbind] in H.
  destruct (init json_loads fs (a_test args) _ _ _) as [va | ?];
    [| discriminate H].
  cbn [rbind] in H. injection H as <-.
  cbn [d_num_samples d_train d_val].
  assert (unwrap (if a_mixup args then MixupDetection tr else Plain tr)
          = tr) as -> by (destruct (a_mixup args); reflexivity).
  assert (0 <= len tr) as Hlen by (unfold len; lia).
  destruct (Z.ltb_spec (a_num_samples args) 0);
    repeat split; try lia; try reflexivity;
    destruct (a_mixup args); try reflexivity; discriminate.
Qed.

(** X19. [get_dataset] lists the two input directories first and then
    builds the training set before the validation set, and the first
    failure is the one reported: a failing listing hides every manifest;
    a failure of the training set is raised whatever the validation
    manifest holds, also when the validation set would fail in another
    way; a missing validation manifest, looked up as
    [validation.manifest] under [args.test], is reported only once the
    training manifest has been read. *)
Theorem get_dataset_errors (fs : gmap string (list string))
    (args : DataArgs) :
  (forall e,
      listdir "/opt/ml/input/data/" = Raise e ->
      get_dataset json_loads listdir fs args = Raise e) /\
  (forall top e,
      listdir "/opt/ml/input/data/" = Ok top ->
      listdir "/opt/ml/input/data/train/" = Raise e ->
      get_dataset json_loads listdir fs args = Raise e) /\
  (forall top sub e,
      listdir "/opt/ml/input/data/" = Ok top ->
      listdir "/opt/ml/input/data/train/" = Ok sub ->
      init json_loads fs (a_train args) "train" (a_images args) "labels"
        = Raise e ->
      get_dataset json_loads listdir fs args = Raise e) /\
  (forall top sub tr e,
      listdir "/opt/ml/input/data/" = Ok top ->
      listdir "/opt/ml/input/data/train/" = Ok sub ->
      init json_loads fs (a_train args) "train" (a_images args) "labels"
        = Ok tr ->
      init json_loads fs (a_test args) "validation" (a_images args)
           "labels" = Raise e ->
      get_dataset json_loads listdir fs args = Raise e) /\
  (forall top sub tr,
      listdir "/opt/ml/input/data/" = Ok top ->
      listdir "/opt/ml/input/data/train/" = Ok sub ->
      init json_loads fs (a_train args) "train" (a_images args) "labels"
        = Ok tr ->
      fs !! manifest_path (a_test args) "validation" = None ->
      get_dataset json_loads listdir fs args =
      Raise (FileNotFoundError
               (manifest_path (a_test args) "validation"))).
Proof.
  unfold get_dataset. split; [| split; [| split; [| split]]].
  - intros e ->. reflexivity.
  - intros top e -> ->. reflexivity.
  - intros top sub e -> -> ->. reflexivity.
  - intros top sub tr e -> -> -> ->. reflexivity.
  - intros top sub tr -> -> -> Hval. cbn [rbind].
    unfold init at 1, open_readlines. rewrite Hval. reflexivity.
Qed.

End GetDatasetFacts.

(** Three training lines, two of them annotated. *)
Lemma get_dataset_num_samples_witness :
  exists d,
    get_dataset Cases.loads Sets.listdir Sets.files Sets.args = Ok d /\
    d_num_samples d = 2.
Proof.
  destruct (get_dataset Cases.loads Sets.listdir Sets.files Sets.args)
    as [d | e] eqn:Hd; [| vm_compute in Hd; discriminate Hd].
  exists d. split; [reflexivity |].
  destruct (get_dataset_num_samples Cases.loads Sets.listdir Sets.files
              Sets.args d Hd) as (Hneg & _).
  rewrite Hneg by (cbn; lia).
  vm_compute in Hd. injection Hd as <-. reflexivity.
Defined.

(** No validation manifest; and with neither manifest, and a training
    directory that differs from the validation directory, the training
    manifest is the one reported missing. *)
Lemma get_dataset_errors_witness :
  get_dataset Cases.loads Sets.listdir Sets.train_only Sets.args =
    Raise (FileNotFoundError "test/validation.manifest") /\
  get_dataset Cases.loads Sets.listdir ∅ Sets.args =
    Raise (FileNotFoundError "train/train.manifest").
Proof.
  split.
  - destruct (get_dataset_errors Cases.loads Sets.listdir Sets.train_only
                Sets.args) as (_ & _ & _ & _ & Hval).
    destruct (init Cases.loads Sets.train_only "train" "train" "images"
                "labels") as [tr | e] eqn:Htr;
      [| vm_compute in Htr; discriminate Htr].
    apply (Hval ["train"; "test"] ["train.manifest"] tr);
      try reflexivity.
    exact Htr.
  - destruct (get_dataset_errors Cases.loads Sets.listdir ∅ Sets.args)
      as (_ & _ & Htrain & _).
    apply (Htrain ["train"; "test"] ["train.manifest"]); reflexivity.
Defined.

(** ** Runs of the demonstration framework *)

(** Two batches with a log record after each. *)
Lemma batch_log_schedule_witness :
  exists w',
    for_enumerate
      (train_batch (F := Demo.scalars) [tt; tt] no_validation_args 0) 0
      [Demo.batch; Demo.batch] Demo.start = Ok w' /\
    omap logged_batch (w_out w') = [0; 1].
Proof.
  destruct (for_enumerate
              (train_batch (F := Demo.scalars) [tt; tt] no_validation_args 0)
              0 [Demo.batch; Demo.batch] Demo.start)
    as [w' | e] eqn:Hrun; [| vm_compute in Hrun; discriminate Hrun].
  exists w'. split; [reflexivity |].
  rewrite (batch_log_schedule (F := Demo.scalars) _ _ _ _ _ _ Hrun).
  reflexivity.
Defined.

(** The demonstration run: four epochs, two of them validated. *)
Lemma train_best_map_witness :
  exists w b,
    train (F := Demo.scalars) [] 0 [Demo.batch] [[5; 6]] [] [tt; tt]
          Demo.args = Ok (w, [b]) /\
    (0 <= b)%Q /\ (best_logs (w_out w) <= 2)%nat.
Proof.
  destruct (train (F := Demo.scalars) [] 0 [Demo.batch] [[5; 6]] [] [tt; tt]
                  Demo.args) as [[w bm] | e] eqn:Hrun;
    [| vm_compute in Hrun; discriminate Hrun].
  destruct (train_best_map (F := Demo.scalars) _ _ _ _ _ _ _ _ _ Hrun)
    as (b & -> & Hb & Hlogs & _).
  exists w, b. split; [reflexivity |]. split; [exact Hb | exact Hlogs].
Defined.


(** With [val_interval] 0 the first epoch ends in [ZeroDivisionError]. *)
Lemma val_interval_zero_witness :
  train (F := Demo.scalars) [] 0 [Demo.batch] [[5; 6]] [] [tt; tt]
        no_validation_args = Raise ZeroDivisionError.
Proof.
  destruct (val_interval_zero (F := Demo.scalars) [] 0 [Demo.batch] [[5; 6]]
              [] [tt; tt] no_validation_args eq_refl)
    as (_ & Hfail & _).
  destruct Hfail as [e He]; [reflexivity |].
  rewrite He. vm_compute in He. injection He as <-. reflexivity.
Defined.

(** Validation of the demonstration state. *)
Lemma validate_frame_witness :
  exists r w',
    validate (F := Demo.scalars) [tt; tt] Demo.start = Ok (r, w') /\
    w_out w' = w_out Demo.start /\ w_trainer w' = w_trainer Demo.start.
Proof.
  destruct (validate (F := Demo.scalars) [tt; tt] Demo.start)
    as [[r w'] | e] eqn:Hrun; [| vm_compute in Hrun; discriminate Hrun].
  destruct (validate_frame (F := Demo.scalars) _ _ _ _ Hrun)
    as (_ & Htr & _ & _ & _ & _ & _ & Hout).
  exists r, w'. split; [reflexivity |]. split; [exact Hout | exact Htr].
Defined.

(** ** Checkpoint names *)

Section NameFacts.

Context {F : Framework}.

(** Reading a zero-padded decimal back. *)
Lemma decode_digits (u : Decimal.uint) :
  NilEmpty.uint_of_string (NilZero.string_of_uint u) <> None /\
  forall d,
    NilEmpty.uint_of_string (NilZero.string_of_uint u) = Some d ->
    N.of_uint d = N.of_uint u.
Proof.
  unfold NilZero.string_of_uint. destruct u;
    try (rewrite NilEmpty.usu; split; [discriminate |];
         intros d [= <-]; reflexivity).
  cbn. split; [discriminate |]. intros d [= <-]. reflexivity.
Qed.

Lemma decode_zeros (k : nat) (s : string) :
  (NilEmpty.uint_of_string s <> None ->
   NilEmpty.uint_of_string (Fmt.zeros k +:+ s) <> None) /\
  forall d,
    NilEmpty.uint_of_string (Fmt.zeros k +:+ s) = Some d ->
    exists d', NilEmpty.uint_of_string s = Some d' /\
               N.of_uint d = N.of_uint d'.
Proof.
  induction k as [| k [IH1 IH2]].
  - split; [exact (fun H => H) |]. intros d Hd. exists d.
    split; [exact Hd | reflexivity].
  - change (Fmt.zeros (S k) +:+ s)
      with (String "0" (Fmt.zeros k +:+ s)).
    cbn [NilEmpty.uint_of_string]. unfold uint_of_char.
    split.
    + intros Hs. specialize (IH1 Hs).
      destruct (NilEmpty.uint_of_string (Fmt.zeros k +:+ s));
        [discriminate | contradiction].
    + intros d Hd.
      destruct (NilEmpty.uint_of_string (Fmt.zeros k +:+ s)) as [d0 |];
        [| discriminate Hd].
      cbn in Hd. injection Hd as <-.
      destruct (IH2 d0 eq_refl) as (d' & Hs & Heq).
      exists d'. split; [exact Hs |]. cbn. exact Heq.
Qed.

(** The number a padded field stands for. *)
Lemma zfill_digits_inj (w w' : nat) (a b : Z) :
  0 <= a -> 0 <= b ->
  Fmt.zfill w (Fmt.digits a) = Fmt.zfill w' (Fmt.digits b) -> a = b.
Proof.
  intros Ha Hb Heq. unfold Fmt.zfill, Fmt.digits in Heq.
  destruct (decode_digits (N.to_uint (Z.to_N a))) as [Hsa Hda].
  destruct (decode_digits (N.to_uint (Z.to_N b))) as [Hsb Hdb].
  destruct (decode_zeros
              (w - String.length
                     (NilZero.string_of_uint (N.to_uint (Z.to_N a))))
              (NilZero.string_of_uint (N.to_uint (Z.to_N a))))
    as [Hza1 Hza2].
  destruct (decode_zeros
              (w' - String.length
                      (NilZero.string_of_uint (N.to_uint (Z.to_N b))))
              (NilZero.string_of_uint (N.to_uint (Z.to_N b))))
    as [_ Hzb2].
  specialize (Hza1 Hsa). rewrite Heq in Hza1, Hza2.
  destruct (NilEmpty.uint_of_string _) as [d |] eqn:Hd in Hza1;
    [| contradiction].
  rewrite Hd in Hza2, Hzb2.
  destruct (Hza2 d eq_refl) as (da & Hda' & Hea).
  destruct (Hzb2 d eq_refl) as (db & Hdb' & Heb).
  specialize (Hda da Hda'). specialize (Hdb db Hdb').
  rewrite !DecimalN.Unsigned.of_to in Hda, Hdb.
  assert (Z.to_N a = Z.to_N b) by congruence. lia.
Qed.

Lemma d04_inj (a b : Z) : Fmt.d04 a = Fmt.d04 b -> a = b.
Proof.
  unfold Fmt.d04.
  assert (forall w n s, Fmt.zfill w (Fmt.digits n) <> "-" +:+ s) as Hsign.
  { intros w n s Heq.
    destruct (decode_digits (N.to_uint (Z.to_N n))) as [Hs _].
    destruct (decode_zeros
                (w - String.length
                       (NilZero.string_of_uint (N.to_uint (Z.to_N n))))
                (NilZero.string_of_uint (N.to_uint (Z.to_N n))))
      as [Hz _].
    apply (Hz Hs). unfold Fmt.zfill, Fmt.digits in Heq. rewrite Heq.
    change ("-" +:+ s) with (String "-"%char s).
    cbn [NilEmpty.uint_of_string].
    destruct (NilEmpty.uint_of_string s); reflexivity. }
  destruct (Z.ltb_spec a 0); destruct (Z.ltb_spec b 0); intros Heq.
  - injection Heq as Heq.
    apply zfill_digits_inj in Heq; lia.
  - exfalso. eapply Hsign. symmetry. exact Heq.
  - exfalso. eapply Hsign. exact Heq.
  - apply zfill_digits_inj in Heq; lia.
Qed.

Lemma chars_append (a b : string) :
  list_ascii_of_string (a +:+ b) =
  list_ascii_of_string a ++ list_ascii_of_string b.
Proof.
  induction a as [| c a IH]; [reflexivity |].
  change (String c a +:+ b) with (String c (a +:+ b)).
  cbn [list_ascii_of_string]. rewrite IH. reflexivity.
Qed.

Lemma uint_no_underscore (u : Decimal.uint) :
  underscore ∉ list_ascii_of_string (NilEmpty.string_of_uint u).
Proof.
  induction u; cbn [NilEmpty.string_of_uint list_ascii_of_string];
    [apply not_elem_of_nil | ..];
    (intros Hin; apply elem_of_cons in Hin as [Heq | Hin];
     [discriminate Heq | contradiction]).
Qed.

Lemma digits_no_underscore (n : Z) :
  underscore ∉ list_ascii_of_string (Fmt.digits n).
Proof.
  unfold Fmt.digits, NilZero.string_of_uint.
  destruct (N.to_uint (Z.to_N n)) eqn:Hu;
    try (rewrite <- Hu; apply uint_no_underscore).
  cbn. intros Hin. apply elem_of_cons in Hin as [Heq | Hin];
    [discriminate Heq | apply elem_of_nil in Hin; exact Hin].
Qed.

Lemma zeros_no_underscore (k : nat) :
  underscore ∉ list_ascii_of_string (Fmt.zeros k).
Proof.
  induction k as [| k IH]; cbn [Fmt.zeros list_ascii_of_string];
    [apply not_elem_of_nil |].
  intros Hin. apply elem_of_cons in Hin as [Heq | Hin];
    [discriminate Heq | contradiction].
Qed.

Lemma d04_no_underscore (n : Z) :
  underscore ∉ list_ascii_of_string (Fmt.d04 n).
Proof.
  unfold Fmt.d04, Fmt.zfill.
  destruct (n <? 0); rewrite !chars_append; intros Hin;
    repeat (apply elem_of_app in Hin as [Hin | Hin]);
    try (eapply zeros_no_underscore; exact Hin);
    try (eapply digits_no_underscore; exact Hin).
  cbn in Hin. apply elem_of_cons in Hin as [Heq | Hin];
    [discriminate Heq | apply elem_of_nil in Hin; exact Hin].
Qed.

Lemma find_sep_first (sep : ascii) (before after : string) :
  sep ∉ list_ascii_of_string before ->
  Py.find_sep sep (before +:+ String sep after) = Some (before, after).
Proof.
  induction before as [| c before IH]; intros Hno.
  - change ("" +:+ String sep after) with (String sep after).
    cbn [Py.find_sep]. rewrite Ascii.eqb_refl. reflexivity.
  - change (String c before +:+ String sep after)
      with (String c (before +:+ String sep after)).
    cbn [Py.find_sep]. cbn [list_ascii_of_string] in Hno.
    destruct (Ascii.eqb_spec c sep) as [-> | Hne].
    + exfalso. apply Hno. left.
    + rewrite IH; [reflexivity |].
      intros Hin. apply Hno. right. exact Hin.
Qed.

Lemma append_cancel (a x y : string) : a +:+ x = a +:+ y -> x = y.
Proof.
  induction a as [| c a IH]; [exact (fun H => H) |].
  change (String c a +:+ x) with (String c (a +:+ x)).
  change (String c a +:+ y) with (String c (a +:+ y)).
  intros [= H]. apply IH, H.
Qed.

Lemma periodic_name_epoch (prefix : string) (e e' : Z) (m m' : Q) :
  prefix +:+ "_" +:+ Fmt.d04 e +:+ "_" +:+ Fmt.f4 m +:+ ".params" =
  prefix +:+ "_" +:+ Fmt.d04 e' +:+ "_" +:+ Fmt.f4 m' +:+ ".params" ->
  e = e'.
Proof.
  intros Hname. apply append_cancel in Hname.
  change ("_" +:+ Fmt.d04 e +:+ "_" +:+ Fmt.f4 m +:+ ".params")
    with (String "_" (Fmt.d04 e +:+
                      String underscore (Fmt.f4 m +:+ ".params")))
    in Hname.
  change ("_" +:+ Fmt.d04 e' +:+ "_" +:+ Fmt.f4 m' +:+ ".params")
    with (String "_" (Fmt.d04 e' +:+
                      String underscore (Fmt.f4 m' +:+ ".params")))
    in Hname.
  injection Hname as Hname.
  apply (f_equal (Py.find_sep underscore)) in Hname.
  rewrite !find_sep_first in Hname by apply d04_no_underscore.
  injection Hname as Hd _. apply d04_inj, Hd.
Qed.

(** X20. Periodic checkpoints of different epochs never go to the same
    file, whatever the network, the prefix and the two maps are: the
    zero-padded epoch number alone tells the names apart.  The best
    checkpoint and its log, in contrast, go to the same two files at
    every epoch and map, so each best model replaces the one before. *)
Theorem checkpoint_names (args : Args) net net' (prefix : string)
    (e e' : Z) (m m' : Q) :
  e <> e' ->
  omap (file_of args) (periodic_files net prefix e m) <>
    omap (file_of args) (periodic_files net' prefix e' m') /\
  omap (file_of args) (best_files net prefix e m) =
    omap (file_of args) (best_files net' prefix e' m').
Proof.
  intros Hne. split; [| reflexivity].
  unfold periodic_files. cbn [omap file_of].
  intros [= Hname]. apply Hne.
  exact (periodic_name_epoch _ _ _ _ _ Hname).
Qed.

End NameFacts.

Lemma checkpoint_names_witness :
  omap (file_of Demo.args)
       (periodic_files (F := Demo.scalars) [] "yolov3" 10 (1 # 2)) <>
    omap (file_of Demo.args)
         (periodic_files (F := Demo.scalars) [1] "yolov3" 20 (1 # 2)) /\
  omap (file_of Demo.args)
       (best_files (F := Demo.scalars) [] "yolov3" 10 (1 # 2)) =
    omap (file_of Demo.args)
         (best_files (F := Demo.scalars) [1] "yolov3" 20 (1 # 2)).
Proof.
  apply (checkpoint_names (F := Demo.scalars) Demo.args [] [1] "yolov3"
           10 20 (1 # 2) (1 # 2)).
  lia.
Defined.
